(** * useAuth: the session hook of nailbliss-pwa

    A shallow embedding of [src/hooks/useAuth.ts].  The hook keeps six
    pieces of React state, one item of [localStorage] and a [mounted]
    flag local to its effect; every [async] function of the source is a
    computation in a small monad that threads this world, raises
    JavaScript exceptions and logs what it does.  The answers of the
    Supabase client are inputs of the computations. *)

From Stdlib Require Import String List ZArith Bool Ascii Lia.
Import ListNotations.
Local Open Scope string_scope.
Local Open Scope list_scope.

Set Implicit Arguments.

(** ** Strings *)

(** [String.prototype.includes]: [includes needle hay] is [hay.includes(needle)]. *)
Fixpoint includes (needle hay : string) : bool :=
  if String.prefix needle hay then true
  else match hay with
       | EmptyString => false
       | String _ rest => includes needle rest
       end.

(** [m?.includes(needle)] used as a condition: an absent message is falsy. *)
Definition opt_includes (m : option string) (needle : string) : bool :=
  match m with
  | Some s => includes needle s
  | None => false
  end.

(** [a === lit] for a field that may be absent. *)
Definition opt_is (a : option string) (lit : string) : bool :=
  match a with
  | Some s => String.eqb s lit
  | None => false
  end.

(** [m || fallback] on strings: the empty string is falsy as well. *)
Definition or_else (m : option string) (fallback : string) : string :=
  match m with
  | Some EmptyString => fallback
  | Some s => s
  | None => fallback
  end.

(** ** Data model *)

Definition REMEMBER_ME_KEY : string := "nailbliss_remember_me".

Inductive Role := customer | staff.

Record User := {
  id : string;
  email : string;
  full_name : string;
  role : Role;
  current_points : Z;
  total_visits : Z
}.

(** What the hook reads of a backend session: [session?.user?.id]. *)
Record Session := { session_user : option string }.

(** Any value that reaches a [catch] or [handleError]: the fields the hook
    inspects, and whether the value is [instanceof Error]. *)
Record JsError := {
  message : option string;
  code : option string;
  status : option Z;
  instanceOfError : bool
}.

(** [new Error(msg)] *)
Definition newError (msg : string) : JsError :=
  {| message := Some msg; code := None; status := None; instanceOfError := true |}.

Inductive ConnectionStatus := connected | disconnected | checking.

Record AuthState := {
  user : option User;
  loading : bool;
  isResettingPassword : bool;
  resetPasswordError : option string;
  connectionStatus : ConnectionStatus;
  lastError : option JsError
}.

(** The [useState] initial values. *)
Definition initialState : AuthState :=
  {| user := None; loading := true; isResettingPassword := false;
     resetPasswordError := None; connectionStatus := checking; lastError := None |}.

(** The state setters. *)
Inductive StateWrite :=
| SetUser (u : option User)
| SetLoading (b : bool)
| SetIsResettingPassword (b : bool)
| SetResetPasswordError (m : option string)
| SetConnectionStatus (c : ConnectionStatus)
| SetLastError (e : option JsError).

Definition apply_write (x : StateWrite) (s : AuthState) : AuthState :=
  match x with
  | SetUser u =>
      {| user := u; loading := loading s; isResettingPassword := isResettingPassword s;
         resetPasswordError := resetPasswordError s; connectionStatus := connectionStatus s;
         lastError := lastError s |}
  | SetLoading b =>
      {| user := user s; loading := b; isResettingPassword := isResettingPassword s;
         resetPasswordError := resetPasswordError s; connectionStatus := connectionStatus s;
         lastError := lastError s |}
  | SetIsResettingPassword b =>
      {| user := user s; loading := loading s; isResettingPassword := b;
         resetPasswordError := resetPasswordError s; connectionStatus := connectionStatus s;
         lastError := lastError s |}
  | SetResetPasswordError m =>
      {| user := user s; loading := loading s; isResettingPassword := isResettingPassword s;
         resetPasswordError := m; connectionStatus := connectionStatus s;
         lastError := lastError s |}
  | SetConnectionStatus c =>
      {| user := user s; loading := loading s; isResettingPassword := isResettingPassword s;
         resetPasswordError := resetPasswordError s; connectionStatus := c;
         lastError := lastError s |}
  | SetLastError e =>
      {| user := user s; loading := loading s; isResettingPassword := isResettingPassword s;
         resetPasswordError := resetPasswordError s; connectionStatus := connectionStatus s;
         lastError := e |}
  end.

(** The calls on the Supabase client.  Credentials and metadata do not
    steer the hook's control flow and are left out of the log. *)
Inductive BackendCall :=
| GetSession
| AuthSignUp
| SignInWithPassword
| AuthSignOut
| ResetPasswordForEmail
| UpdateUser
| SelectUser (userId : string)
| InsertUser (userId : string) (r : Role).

Inductive Effect :=
| Write (x : StateWrite)
| Backend (c : BackendCall)
| Timer (ms : Z)
| StorageGetItem
| StorageSetItem (v : string)
| StorageRemoveItem
| AuthErrorLog (operation : string) (raw : JsError)
| ConsoleError (label : string) (e : JsError)
| Unmount.

(** The world of one mounted consumer.  [unmounts] is the environment's
    schedule: its head tells whether the effect's cleanup runs while the
    hook is suspended at its next [await]. *)
Record World := {
  auth : AuthState;
  rememberMeItem : option string;
  mounted : bool;
  subscribed : bool;
  unmounts : list bool
}.

Definition with_auth (f : AuthState -> AuthState) (w : World) : World :=
  {| auth := f (auth w); rememberMeItem := rememberMeItem w; mounted := mounted w;
     subscribed := subscribed w; unmounts := unmounts w |}.

Definition with_item (v : option string) (w : World) : World :=
  {| auth := auth w; rememberMeItem := v; mounted := mounted w;
     subscribed := subscribed w; unmounts := unmounts w |}.

(** The cleanup returned by the effect:
    [mounted = false; subscription.unsubscribe()]. *)
Definition cleanup (w : World) : World :=
  {| auth := auth w; rememberMeItem := rememberMeItem w; mounted := false;
     subscribed := false; unmounts := unmounts w |}.

(** ** The monad of async functions *)

Inductive Outcome (A : Type) :=
| Returns (a : A)
| Throws (e : JsError).
Arguments Throws {A} e.

Record Run (A : Type) := {
  outcome : Outcome A;
  final : World;
  events : list Effect
}.

Definition Async (A : Type) := World -> Run A.

Definition ret {A} (a : A) : Async A :=
  fun w => {| outcome := Returns a; final := w; events := [] |}.

Definition throw {A} (e : JsError) : Async A :=
  fun w => {| outcome := Throws e; final := w; events := [] |}.

Definition bind {A B} (m : Async A) (k : A -> Async B) : Async B :=
  fun w =>
    let r := m w in
    match outcome r with
    | Returns a =>
        let r' := k a (final r) in
        {| outcome := outcome r'; final := final r'; events := events r ++ events r' |}
    | Throws e => {| outcome := Throws e; final := final r; events := events r |}
    end.

Notation "x <- m ;; k" := (bind m (fun x => k))
  (at level 61, m at next level, right associativity).
Notation "m ;; k" := (bind m (fun _ => k))
  (at level 61, right associativity).

(** [try { m } catch (error) { h error }] *)
Definition try_catch {A} (m : Async A) (h : JsError -> Async A) : Async A :=
  fun w =>
    let r := m w in
    match outcome r with
    | Returns a => r
    | Throws e =>
        let r' := h e (final r) in
        {| outcome := outcome r'; final := final r'; events := events r ++ events r' |}
    end.

(** [try { m } finally { f }], for a finalizer that neither returns nor throws
    on its own account. *)
Definition try_finally {A} (m : Async A) (f : Async unit) : Async A :=
  fun w =>
    let r := m w in
    let r' := f (final r) in
    {| outcome := match outcome r' with
                  | Returns _ => outcome r
                  | Throws e => Throws e
                  end;
       final := final r';
       events := events r ++ events r' |}.

Definition perform (e : Effect) : Async unit :=
  fun w => {| outcome := Returns tt; final := w; events := [e] |}.

(** A call of a state setter.  React drops the update when the consumer
    is no longer mounted; the call is logged either way. *)
Definition setState (x : StateWrite) : Async unit :=
  fun w => {| outcome := Returns tt;
              final := if mounted w then with_auth (apply_write x) w else w;
              events := [Write x] |}.

Definition setUser u := setState (SetUser u).
Definition setLoading b := setState (SetLoading b).
Definition setIsResettingPassword b := setState (SetIsResettingPassword b).
Definition setResetPasswordError m := setState (SetResetPasswordError m).
Definition setConnectionStatus c := setState (SetConnectionStatus c).
Definition setLastError e := setState (SetLastError e).

(** [if (mounted) { m }] *)
Definition if_mounted (m : Async unit) : Async unit :=
  fun w => if mounted w then m w else ret tt w.

(** [localStorage] under [REMEMBER_ME_KEY], for a store that is available:
    its three operations return. *)
Definition getItem : Async (option string) :=
  fun w => {| outcome := Returns (rememberMeItem w); final := w; events := [StorageGetItem] |}.

Definition setItem (v : string) : Async unit :=
  fun w => {| outcome := Returns tt; final := with_item (Some v) w;
              events := [StorageSetItem v] |}.

Definition removeItem : Async unit :=
  fun w => {| outcome := Returns tt; final := with_item None w;
              events := [StorageRemoveItem] |}.

(** A suspension point: other code runs before the continuation resumes,
    and the consumer may be unmounted meanwhile.  The model suspends where
    the hook awaits the backend or a timer. *)
Definition suspend : Async unit :=
  fun w =>
    let w' := {| auth := auth w; rememberMeItem := rememberMeItem w; mounted := mounted w;
                 subscribed := subscribed w; unmounts := tl (unmounts w) |} in
    if hd false (unmounts w)
    then {| outcome := Returns tt; final := cleanup w'; events := [Unmount] |}
    else {| outcome := Returns tt; final := w'; events := [] |}.

(** What a Supabase call resolves to, [{ data, error }], or what its
    promise rejects with. *)
Record Reply (A : Type) := { data : A; error : option JsError }.

Inductive Settled (A : Type) :=
| Fulfilled (r : Reply A)
| Rejected (reason : JsError).
Arguments Rejected {A} reason.

(** [await <backend call>] *)
Definition await {A} (c : BackendCall) (p : Settled A) : Async (Reply A) :=
  perform (Backend c) ;;
  suspend ;;
  match p with
  | Fulfilled r => ret r
  | Rejected reason => throw reason
  end.

(** [await new Promise(resolve => setTimeout(resolve, ms))] *)
Definition sleep (ms : Z) : Async unit :=
  perform (Timer ms) ;; suspend.

(** ** The hook *)

(** [error.message?.includes('fetch') || error.message?.includes('network')],
    the test shared by [testConnection] and [handleError]. *)
Definition mentions_network (error : JsError) : bool :=
  opt_includes (message error) "fetch" || opt_includes (message error) "network".

(** [testConnection] *)
Definition testConnection (health : Settled (option Session)) : Async bool :=
  try_catch
    (setConnectionStatus checking ;;
     r <- await GetSession health ;;
     match error r with
     | Some err =>
         if mentions_network err
         then setConnectionStatus disconnected ;; ret false
         else setConnectionStatus connected ;; ret true
     | None => setConnectionStatus connected ;; ret true
     end)
    (fun _ => setConnectionStatus disconnected ;; ret false).

(** The branches of [handleError], named after the taxonomy of the
    specification. *)
Inductive ErrorKind :=
| NetworkError
| InvalidCredentials
| EmailNotConfirmed
| UserAlreadyExists
| PermissionDenied
| ServerUnavailable
| Unknown.

(** [[500, 502, 503, 504].includes(error?.status)] *)
Definition server_status (s : option Z) : bool :=
  match s with
  | Some n => existsb (Z.eqb n) [500; 502; 503; 504]%Z
  | None => false
  end.

(** The other conditions of the [if ... else if] chain of [handleError]. *)
Definition mentions_credentials (error : JsError) : bool :=
  opt_includes (message error) "Invalid login credentials"
  || opt_is (code error) "invalid_credentials".

Definition mentions_confirmation (error : JsError) : bool :=
  opt_includes (message error) "Email not confirmed"
  || opt_is (code error) "email_not_confirmed".

Definition mentions_duplicate (error : JsError) : bool :=
  opt_includes (message error) "User already registered"
  || opt_is (code error) "user_already_exists".

Definition mentions_permission (error : JsError) : bool :=
  opt_includes (message error) "row-level security policy"
  || opt_is (code error) "42501".

Definition mentions_server (error : JsError) : bool :=
  server_status (status error).

(** The chain itself: which branch [handleError] takes. *)
Definition classify (error : JsError) : ErrorKind :=
  if mentions_network error then NetworkError
  else if mentions_credentials error then InvalidCredentials
  else if mentions_confirmation error then EmailNotConfirmed
  else if mentions_duplicate error then UserAlreadyExists
  else if mentions_permission error then PermissionDenied
  else if mentions_server error then ServerUnavailable
  else Unknown.

Definition networkMessage : string :=
  "Network connection failed. Please check your internet connection and try again.".
Definition credentialsMessage : string :=
  "Invalid email or password. Please check your credentials and try again.".
Definition confirmationMessage : string :=
  "Please check your email and click the confirmation link before signing in.".
Definition duplicateMessage : string :=
  "An account with this email already exists. Please sign in instead.".
Definition permissionMessage : string :=
  "Account permissions issue. Please contact support if this persists.".
Definition serverMessage : string :=
  "Our servers are temporarily unavailable. Please try again in a few minutes.".
Definition fallbackMessage : string :=
  "An unexpected error occurred. Please try again.".

(** [handleError]: the bodies of the chain, then the enhanced error. *)
Definition handleError (error : JsError) (operation : string) : Async JsError :=
  perform (AuthErrorLog operation error) ;;
  userMessage <-
    match classify error with
    | NetworkError => setConnectionStatus disconnected ;; ret networkMessage
    | InvalidCredentials => ret credentialsMessage
    | EmailNotConfirmed => ret confirmationMessage
    | UserAlreadyExists => ret duplicateMessage
    | PermissionDenied => ret permissionMessage
    | ServerUnavailable => setConnectionStatus disconnected ;; ret serverMessage
    | Unknown => ret (or_else (message error) fallbackMessage)
    end ;;
  let enhancedError := newError userMessage in
  setLastError (Some enhancedError) ;;
  ret enhancedError.

(** [throw handleError(error, operation)] *)
Definition throw_handled {A} (error : JsError) (operation : string) : Async A :=
  e <- handleError error operation ;; throw e.

(** [fetchUserProfile] *)
Definition fetchUserProfile (userId : string) (row : Settled (option User)) : Async User :=
  try_catch
    (r <- await (SelectUser userId) row ;;
     match error r with
     | Some err => throw_handled err "fetching user profile"
     | None =>
         match data r with
         | None => throw_handled (newError "User profile data is empty") "fetching user profile"
         | Some d => ret d
         end
     end)
    (fun err =>
       if instanceOfError err then throw err
       else throw_handled err "fetching user profile").

(** [session?.user], then [session.user.id] *)
Definition session_user_id (session : option Session) : option string :=
  match session with
  | Some s => session_user s
  | None => None
  end.

(** [initializeAuth], the bootstrap run once by the effect.  A [return]
    inside the [try] becomes the end of its branch; the [finally] block
    runs after every one of them. *)
Definition initializeAuth
    (health : Settled (option Session))
    (signedOut : Settled unit)
    (current : Settled (option Session))
    (row : Settled (option User)) : Async unit :=
  try_finally
    (try_catch
       (isConnected <- testConnection health ;;
        if negb isConnected then
          if_mounted (setLoading false)
        else
          item <- getItem ;;
          let rememberMe := opt_is item "true" in
          if negb rememberMe then
            await AuthSignOut signedOut ;;
            if_mounted (setUser None ;; setLoading false)
          else
            r <- await GetSession current ;;
            match error r with
            | Some err =>
                handleError err "getting session" ;;
                removeItem ;;
                if_mounted (setLoading false)
            | None =>
                match session_user_id (data r) with
                | Some userId =>
                    try_catch
                      (userData <- fetchUserProfile userId row ;;
                       if_mounted (setUser (Some userData)))
                      (fun err =>
                         perform (ConsoleError "Error fetching user profile:" err) ;;
                         if_mounted (setUser None))
                | None =>
                    removeItem ;;
                    if_mounted (setUser None)
                end
            end)
       (fun err =>
          handleError err "initializing auth" ;;
          removeItem ;;
          if_mounted (setUser None)))
    (if_mounted (setLoading false)).

(** The [try ... catch] of the handler given to
    [supabase.auth.onAuthStateChange]. *)
Definition react
    (event : string) (session : option Session)
    (row retried : Settled (option User)) : Async unit :=
  try_catch
    (if String.eqb event "SIGNED_OUT" then
       setUser None ;; setLoading false
     else if String.eqb event "PASSWORD_RECOVERY" then
       setLoading false
     else
       match session_user_id session with
       | Some userId =>
           setLoading true ;;
           try_catch
             ((if String.eqb event "SIGNED_UP" then sleep 1000 else ret tt) ;;
              userData <- fetchUserProfile userId row ;;
              setUser (Some userData))
             (fun err =>
                if opt_includes (message err) "User profile not found"
                   || opt_includes (message err) "0 rows"
                then
                  sleep 2000 ;;
                  try_catch
                    (userData <- fetchUserProfile userId retried ;;
                     setUser (Some userData))
                    (fun retryError =>
                       perform (ConsoleError "Profile still not found after retry:"
                                             retryError) ;;
                       setUser None)
                else setUser None) ;;
           setLoading false
       | None => setUser None ;; setLoading false
       end)
    (fun err =>
       handleError err "auth state change" ;;
       setUser None ;;
       setLoading false).

(** The handler: [if (!mounted) return;] and then the reaction. *)
Definition onAuthStateChange
    (event : string) (session : option Session)
    (row retried : Settled (option User)) : Async unit :=
  fun w => if negb (mounted w) then ret tt w else react event session row retried w.

(** An event of the backend reaches the handler as long as the
    subscription stands. *)
Definition dispatch
    (event : string) (session : option Session)
    (row retried : Settled (option User)) : Async unit :=
  fun w => if subscribed w then onAuthStateChange event session row retried w else ret tt w.

Definition unreachableError : JsError :=
  newError "Unable to connect to authentication service".

(** [signUp] *)
Definition signUp
    (r : Role) (rememberMe : bool)
    (health : Settled (option Session))
    (created : Settled (option string))
    (inserted : Settled unit) : Async unit :=
  try_catch
    (setLoading true ;;
     setLastError None ;;
     isConnected <- testConnection health ;;
     (if negb isConnected
      then throw_handled unreachableError "testing connection"
      else ret tt) ;;
     su <- await AuthSignUp created ;;
     match error su with
     | Some err => throw_handled err "signing up"
     | None =>
         match data su with
         | None =>
             throw_handled (newError "User creation failed - no user data returned")
                           "signing up"
         | Some userId =>
             sleep 500 ;;
             ins <- await (InsertUser userId r) inserted ;;
             match error ins with
             | Some profileError => throw_handled profileError "creating user profile"
             | None =>
                 (if rememberMe then setItem "true" else removeItem) ;;
                 setLoading false
             end
         end
     end)
    (fun err =>
       setLoading false ;;
       if instanceOfError err then throw err
       else throw_handled err "signing up").

(** [signIn] *)
Definition signIn
    (rememberMe : bool)
    (health : Settled (option Session))
    (verified : Settled unit) : Async unit :=
  try_catch
    (setLoading true ;;
     setLastError None ;;
     isConnected <- testConnection health ;;
     (if negb isConnected
      then throw_handled unreachableError "testing connection"
      else ret tt) ;;
     si <- await SignInWithPassword verified ;;
     match error si with
     | Some err => throw_handled err "signing in"
     | None =>
         (if rememberMe then setItem "true" else removeItem) ;;
         setLoading false
     end)
    (fun err =>
       setLoading false ;;
       if instanceOfError err then throw err
       else throw_handled err "signing in").

(** [signOut] *)
Definition signOut (signedOut : Settled unit) : Async unit :=
  try_catch
    (setLoading true ;;
     setLastError None ;;
     so <- await AuthSignOut signedOut ;;
     match error so with
     | Some err => throw_handled err "signing out"
     | None =>
         removeItem ;;
         setUser None ;;
         setLoading false
     end)
    (fun err =>
       setLoading false ;;
       if instanceOfError err then throw err
       else throw_handled err "signing out").

(** [resetPassword] *)
Definition resetPassword
    (health : Settled (option Session))
    (requested : Settled unit) : Async unit :=
  try_catch
    (setIsResettingPassword true ;;
     setResetPasswordError None ;;
     setLastError None ;;
     isConnected <- testConnection health ;;
     (if negb isConnected
      then throw_handled unreachableError "testing connection"
      else ret tt) ;;
     rp <- await ResetPasswordForEmail requested ;;
     match error rp with
     | Some err => throw_handled err "requesting password reset"
     | None => setIsResettingPassword false
     end)
    (fun err =>
       setIsResettingPassword false ;;
       enhancedError <- (if instanceOfError err then ret err
                         else handleError err "requesting password reset") ;;
       setResetPasswordError (message enhancedError) ;;
       throw enhancedError).

(** [updatePassword] *)
Definition updatePassword (updated : Settled unit) : Async unit :=
  try_catch
    (setLoading true ;;
     setLastError None ;;
     up <- await UpdateUser updated ;;
     match error up with
     | Some err => throw_handled err "updating password"
     | None => setLoading false
     end)
    (fun err =>
       setLoading false ;;
       if instanceOfError err then throw err
       else throw_handled err "updating password").

(** ** Reading a log *)

Definition backend_calls (t : list Effect) : list BackendCall :=
  flat_map (fun e => match e with Backend c => [c] | _ => [] end) t.

Definition state_writes (t : list Effect) : list StateWrite :=
  flat_map (fun e => match e with Write x => [x] | _ => [] end) t.

Definition timers (t : list Effect) : list Z :=
  flat_map (fun e => match e with Timer ms => [ms] | _ => [] end) t.

Definition touches_storage (e : Effect) : bool :=
  match e with
  | StorageSetItem _ | StorageRemoveItem => true
  | _ => false
  end.

Definition storage_writes (t : list Effect) : list Effect :=
  filter touches_storage t.

Definition is_unmount (e : Effect) : bool :=
  match e with Unmount => true | _ => false end.

(** What the log holds after the consumer was unmounted. *)
Fixpoint after_unmount (t : list Effect) : list Effect :=
  match t with
  | [] => []
  | e :: rest => if is_unmount e then rest else after_unmount rest
  end.

(** An error is classified as [k] when it is what [handleError] builds
    from a raw error that takes branch [k]. *)
Definition enhanced (raw : JsError) : JsError :=
  newError
    match classify raw with
    | NetworkError => networkMessage
    | InvalidCredentials => credentialsMessage
    | EmailNotConfirmed => confirmationMessage
    | UserAlreadyExists => duplicateMessage
    | PermissionDenied => permissionMessage
    | ServerUnavailable => serverMessage
    | Unknown => or_else (message raw) fallbackMessage
    end.

Definition classified_as (k : ErrorKind) (e : JsError) : Prop :=
  exists raw, classify raw = k /\ e = enhanced raw.

(** A world right after mount, before anything resolved. *)
Definition mountedWorld (item : option string) (schedule : list bool) : World :=
  {| auth := initialState; rememberMeItem := item; mounted := true;
     subscribed := true; unmounts := schedule |}.


(** ** Specification vocabulary *)

Definition reports_network_failure (health : Settled (option Session)) : bool :=
  match health with
  | Fulfilled rep =>
      match error rep with
      | Some err => mentions_network err
      | None => false
      end
  | Rejected _ => false
  end.

Definition probe_rejects (health : Settled (option Session)) : bool :=
  match health with
  | Fulfilled _ => false
  | Rejected _ => true
  end.

(** The probe fails when the health call reports a network failure or throws. *)
Definition probe_fails (health : Settled (option Session)) : bool :=
  reports_network_failure health || probe_rejects health.

(** The two kinds whose branch also marks the backend as unreachable. *)
Definition marks_disconnected (k : ErrorKind) : bool :=
  match k with
  | NetworkError | ServerUnavailable => true
  | _ => false
  end.

(** The test of the handler's first [catch]: the message looks like a
    missing profile row. *)
Definition looks_not_found (err : JsError) : bool :=
  opt_includes (message err) "User profile not found"
  || opt_includes (message err) "0 rows".

(** The world in which a continuation resumes after a suspension, and
    what the suspension leaves in the log. *)
Definition resumed (w : World) : World := final (suspend w).
Definition interruption (w : World) : list Effect := events (suspend w).

(** What a setter call does to the state of a consumer that is alive
    ([alive = true]) or not. *)
Definition written (alive : bool) (x : StateWrite) (s : AuthState) : AuthState :=
  {| user := match x with SetUser u => if alive then u else user s | _ => user s end;
     loading := match x with
                | SetLoading b => if alive then b else loading s
                | _ => loading s
                end;
     isResettingPassword := match x with
                            | SetIsResettingPassword b =>
                                if alive then b else isResettingPassword s
                            | _ => isResettingPassword s
                            end;
     resetPasswordError := match x with
                           | SetResetPasswordError m =>
                               if alive then m else resetPasswordError s
                           | _ => resetPasswordError s
                           end;
     connectionStatus := match x with
                         | SetConnectionStatus c =>
                             if alive then c else connectionStatus s
                         | _ => connectionStatus s
                         end;
     lastError := match x with
                  | SetLastError e => if alive then e else lastError s
                  | _ => lastError s
                  end |}.

(** What [handleError] does to the state and to the log. *)
Definition handled (alive : bool) (error : JsError) (s : AuthState) : AuthState :=
  {| user := user s; loading := loading s; isResettingPassword := isResettingPassword s;
     resetPasswordError := resetPasswordError s;
     connectionStatus := if alive && marks_disconnected (classify error) then disconnected
                         else connectionStatus s;
     lastError := if alive then Some (enhanced error) else lastError s |}.

Definition handled_log (error : JsError) (operation : string) : list Effect :=
  AuthErrorLog operation error
  :: (if marks_disconnected (classify error)
      then [Write (SetConnectionStatus disconnected)] else [])
  ++ [Write (SetLastError (Some (enhanced error)))].

(** What the probe does to the state and to the log: [before] and [after]
    tell whether the consumer is alive before and after the health call. *)
Definition probed (before after : bool) (health : Settled (option Session))
    (s : AuthState) : AuthState :=
  written after
    (SetConnectionStatus (if probe_fails health then disconnected else connected))
    (written before (SetConnectionStatus checking) s).

Definition probed_log (health : Settled (option Session)) (w : World) : list Effect :=
  Write (SetConnectionStatus checking) :: Backend GetSession :: interruption w
  ++ [Write (SetConnectionStatus (if probe_fails health then disconnected else connected))].

(** The write to the remember-me item that ends a successful sign-in or
    sign-up. *)
Definition sets_flag (rememberMe : bool) : Effect :=
  if rememberMe then StorageSetItem "true" else StorageRemoveItem.

(** What [fetchUserProfile] returns or throws, read off the answer of the
    profile store. *)
Definition fetched (row : Settled (option User)) : Outcome User :=
  match row with
  | Fulfilled rep =>
      match error rep with
      | Some err => Throws (enhanced err)
      | None =>
          match data rep with
          | Some d => Returns d
          | None => Throws (enhanced (newError "User profile data is empty"))
          end
      end
  | Rejected reason =>
      if instanceOfError reason then Throws reason else Throws (enhanced reason)
  end.

(** The raw error that [fetchUserProfile] hands to [handleError], if any,
    and what the lookup does to the state and to the log. *)
Definition fetch_failure (row : Settled (option User)) : option JsError :=
  match row with
  | Fulfilled rep =>
      match error rep with
      | Some err => Some err
      | None =>
          match data rep with
          | Some _ => None
          | None => Some (newError "User profile data is empty")
          end
      end
  | Rejected reason => if instanceOfError reason then None else Some reason
  end.

Definition fetch_state (alive : bool) (row : Settled (option User)) (s : AuthState)
  : AuthState :=
  match fetch_failure row with
  | Some raw => handled alive raw s
  | None => s
  end.

Definition fetch_log (userId : string) (row : Settled (option User)) (w : World)
  : list Effect :=
  Backend (SelectUser userId) :: interruption w
  ++ match fetch_failure row with
     | Some raw => handled_log raw "fetching user profile"
     | None => []
     end.

(** The grace period of the handler before its first lookup. *)
Definition grace (event : string) : list Z :=
  if String.eqb event "SIGNED_UP" then [1000%Z] else [].

(** The user the backend sign-up created, when it reports no error. *)
Definition created_user (created : Settled (option string)) : option string :=
  match created with
  | Fulfilled rep =>
      match error rep with
      | Some _ => None
      | None => data rep
      end
  | Rejected _ => None
  end.

(** The profile lookup that follows the session lookup of the bootstrap. *)
Definition session_lookup (current : Settled (option Session)) : list BackendCall :=
  match current with
  | Fulfilled rep =>
      match error rep with
      | Some _ => []
      | None =>
          match session_user_id (data rep) with
          | Some userId => [SelectUser userId]
          | None => []
          end
      end
  | Rejected _ => []
  end.

(** The rules of the classifier as the specification names them, by the
    text, code or status that triggers each. *)
Definition network_class (e : JsError) : Prop :=
  opt_includes (message e) "fetch" = true \/ opt_includes (message e) "network" = true.

Definition credentials_class (e : JsError) : Prop :=
  opt_includes (message e) "Invalid login credentials" = true
  \/ code e = Some "invalid_credentials".

Definition confirmation_class (e : JsError) : Prop :=
  opt_includes (message e) "Email not confirmed" = true
  \/ code e = Some "email_not_confirmed".

Definition duplicate_class (e : JsError) : Prop :=
  opt_includes (message e) "User already registered" = true
  \/ code e = Some "user_already_exists".

Definition permission_class (e : JsError) : Prop :=
  opt_includes (message e) "row-level security policy" = true
  \/ code e = Some "42501".

Definition server_class (e : JsError) : Prop :=
  exists n, status e = Some n /\ In n [500; 502; 503; 504]%Z.



(** A postcondition on the outcome, the final world and the log of a run. *)
Inductive wp {A} (m : Async A) (w : World)
    (Q : Outcome A -> World -> list Effect -> Prop) : Prop :=
| wp_intro : Q (outcome (m w)) (final (m w)) (events (m w)) -> wp m w Q.



(** ** Scenarios *)

Definition fulfilled {A} (d : A) : Settled A :=
  Fulfilled {| data := d; error := None |}.

Definition failed {A} (d : A) (err : JsError) : Settled A :=
  Fulfilled {| data := d; error := Some err |}.

Definition jane : User :=
  {| id := "u1"; email := "a@b.com"; full_name := "Jane"; role := customer;
     current_points := 0; total_visits := 0 |}.

Definition janeSession : option Session := Some {| session_user := Some "u1" |}.

(** A failed [fetch]: the backend cannot be reached. *)
Definition fetchFailure : JsError :=
  {| message := Some "TypeError: Failed to fetch"; code := Some "invalid_credentials";
     status := Some 503%Z; instanceOfError := true |}.

(** The profile row is not there yet. *)
Definition rowMissing : JsError :=
  {| message := Some "The result contains 0 rows"; code := Some "PGRST116";
     status := Some 406%Z; instanceOfError := false |}.

(** An error of the backend that is not a network failure. *)
Definition sessionExpired : JsError :=
  {| message := Some "Session expired"; code := Some "session_expired";
     status := Some 401%Z; instanceOfError := true |}.

(** A rejected password. *)
Definition badPassword : JsError :=
  {| message := Some "Invalid login credentials"; code := Some "invalid_credentials";
     status := Some 400%Z; instanceOfError := true |}.

(** A gateway that answers for a backend that is down. *)
Definition gatewayDown : JsError :=
  {| message := Some "Bad gateway"; code := None;
     status := Some 502%Z; instanceOfError := true |}.

(** ** Proof tools *)

Unset Implicit Arguments.

Arguments includes : simpl never.
Arguments opt_includes : simpl never.
Arguments opt_is : simpl never.
Arguments mentions_network : simpl never.
Arguments classify : simpl never.
Arguments enhanced : simpl never.
Arguments resumed : simpl never.
Arguments interruption : simpl never.
Arguments handled_log : simpl never.
Arguments probed_log : simpl never.
Arguments fetch_log : simpl never.
Arguments fetch_state : simpl never.
Arguments fetched : simpl never.

Section Rules.
Context {A : Type}.
Variable w : World.
Variable Q : Outcome A -> World -> list Effect -> Prop.

Lemma wp_ret (a : A) : Q (Returns a) w [] -> wp (ret a) w Q.
Proof. intro H; constructor; exact H. Qed.

Lemma wp_throw (e : JsError) : Q (Throws e) w [] -> wp (throw e) w Q.
Proof. intro H; constructor; exact H. Qed.

Lemma wp_bind {B} (m : Async B) (k : B -> Async A) :
  wp m w (fun o w1 t1 =>
            match o with
            | Returns b => wp (k b) w1 (fun o2 w2 t2 => Q o2 w2 (t1 ++ t2))
            | Throws e => Q (Throws e) w1 t1
            end) ->
  wp (bind m k) w Q.
Proof.
  intros [H]; constructor; unfold bind.
  destruct (outcome (m w)); [destruct H as [H]|]; exact H.
Qed.

Lemma wp_try_catch (m : Async A) (h : JsError -> Async A) :
  wp m w (fun o w1 t1 =>
            match o with
            | Returns a => Q (Returns a) w1 t1
            | Throws e => wp (h e) w1 (fun o2 w2 t2 => Q o2 w2 (t1 ++ t2))
            end) ->
  wp (try_catch m h) w Q.
Proof.
  intros [H]; constructor; unfold try_catch.
  destruct (outcome (m w)) eqn:E; [rewrite E|destruct H as [H]]; exact H.
Qed.

Lemma wp_try_finally (m : Async A) (f : Async unit) :
  wp m w (fun o w1 t1 =>
            wp f w1 (fun o2 w2 t2 =>
                       Q match o2 with Returns _ => o | Throws e => Throws e end
                         w2 (t1 ++ t2))) ->
  wp (try_finally m f) w Q.
Proof. intros [[H]]; constructor; exact H. Qed.

(** A property of a run is a postcondition of the computation. *)
Lemma wp_run (m : Async A) (P : Run A -> Prop) :
  wp m w (fun o w' t => P {| outcome := o; final := w'; events := t |}) -> P (m w).
Proof. intros [H]. destruct (m w); exact H. Qed.
End Rules.

Section UnitRules.
Variable w : World.
Variable Q : Outcome unit -> World -> list Effect -> Prop.

Lemma wp_perform (e : Effect) : Q (Returns tt) w [e] -> wp (perform e) w Q.
Proof. intro H; constructor; exact H. Qed.

Lemma wp_setState (x : StateWrite) :
  Q (Returns tt) (with_auth (written (mounted w) x) w) [Write x] -> wp (setState x) w Q.
Proof.
  intro H; constructor; revert H. unfold setState.
  destruct w as [[u l i rp c le] item [|] su un]; destruct x; exact (fun H => H).
Qed.

Lemma wp_setItem (v : string) :
  Q (Returns tt) (with_item (Some v) w) [StorageSetItem v] -> wp (setItem v) w Q.
Proof. intro H; constructor; exact H. Qed.

Lemma wp_removeItem :
  Q (Returns tt) (with_item None w) [StorageRemoveItem] -> wp removeItem w Q.
Proof. intro H; constructor; exact H. Qed.

Lemma wp_suspend : Q (Returns tt) (resumed w) (interruption w) -> wp suspend w Q.
Proof.
  intro H; constructor; revert H; unfold resumed, interruption, suspend.
  destruct (hd false (unmounts w)); exact (fun H => H).
Qed.

Lemma wp_sleep (ms : Z) :
  Q (Returns tt) (resumed w) (Timer ms :: interruption w) -> wp (sleep ms) w Q.
Proof.
  intro H; constructor; revert H.
  unfold resumed, interruption, sleep, bind, perform, suspend; cbn.
  destruct (hd false (unmounts w)); exact (fun H => H).
Qed.

Lemma wp_if_mounted (m : Async unit) :
  (mounted w = true -> wp m w Q) ->
  (mounted w = false -> Q (Returns tt) w []) ->
  wp (if_mounted m) w Q.
Proof.
  intros H1 H2; constructor; unfold if_mounted.
  destruct (mounted w); [destruct (H1 eq_refl) as [H]; exact H | exact (H2 eq_refl)].
Qed.

Lemma wp_onAuthStateChange event session row retried :
  (mounted w = true -> wp (react event session row retried) w Q) ->
  (mounted w = false -> Q (Returns tt) w []) ->
  wp (onAuthStateChange event session row retried) w Q.
Proof.
  intros H1 H2; constructor; unfold onAuthStateChange.
  destruct (mounted w); [destruct (H1 eq_refl) as [H]; exact H | exact (H2 eq_refl)].
Qed.
End UnitRules.

Lemma wp_getItem (w : World) (Q : Outcome (option string) -> World -> list Effect -> Prop) :
  Q (Returns (rememberMeItem w)) w [StorageGetItem] -> wp getItem w Q.
Proof. intro H; constructor; exact H. Qed.

Lemma wp_await {A} (c : BackendCall) (p : Settled A) (w : World)
    (Q : Outcome (Reply A) -> World -> list Effect -> Prop) :
  match p with
  | Fulfilled r => Q (Returns r) (resumed w) (Backend c :: interruption w)
  | Rejected reason => Q (Throws reason) (resumed w) (Backend c :: interruption w)
  end ->
  wp (await c p) w Q.
Proof.
  intro H; constructor; revert H.
  unfold resumed, interruption, await, bind, perform, suspend; cbn.
  destruct p; destruct (hd false (unmounts w)); exact (fun H => H).
Qed.

(** Resuming changes neither the state nor the storage; it can only unmount. *)
Lemma auth_resumed w : auth (resumed w) = auth w.
Proof. unfold resumed, suspend. destruct (hd false (unmounts w)); reflexivity. Qed.

Lemma item_resumed w : rememberMeItem (resumed w) = rememberMeItem w.
Proof. unfold resumed, suspend. destruct (hd false (unmounts w)); reflexivity. Qed.

Lemma mounted_resumed w :
  mounted (resumed w) = if hd false (unmounts w) then false else mounted w.
Proof. unfold resumed, suspend. destruct (hd false (unmounts w)); reflexivity. Qed.

Lemma unmounts_resumed w : unmounts (resumed w) = tl (unmounts w).
Proof. unfold resumed, suspend. destruct (hd false (unmounts w)); reflexivity. Qed.

Lemma interruption_cases w :
  interruption w = if hd false (unmounts w) then [Unmount] else [].
Proof. unfold interruption, suspend. destruct (hd false (unmounts w)); reflexivity. Qed.

Lemma resumed_with_auth f w : resumed (with_auth f w) = with_auth f (resumed w).
Proof. unfold resumed, suspend; cbn. destruct (hd false (unmounts w)); reflexivity. Qed.

Lemma resumed_with_item v w : resumed (with_item v w) = with_item v (resumed w).
Proof. unfold resumed, suspend; cbn. destruct (hd false (unmounts w)); reflexivity. Qed.

Lemma interruption_with_auth f w : interruption (with_auth f w) = interruption w.
Proof. unfold interruption, suspend; cbn. destruct (hd false (unmounts w)); reflexivity. Qed.

Lemma interruption_with_item v w : interruption (with_item v w) = interruption w.
Proof. unfold interruption, suspend; cbn. destruct (hd false (unmounts w)); reflexivity. Qed.

Lemma instanceOfError_enhanced raw : instanceOfError (enhanced raw) = true.
Proof. reflexivity. Qed.

Lemma classify_unreachable : classify unreachableError = Unknown.
Proof. reflexivity. Qed.

Lemma enhanced_unreachable : enhanced unreachableError = unreachableError.
Proof. reflexivity. Qed.

Lemma opt_is_false (a : option string) (lit : string) :
  a <> Some lit -> opt_is a lit = false.
Proof.
  unfold opt_is. destruct a as [s|]; [|reflexivity].
  intro H. apply String.eqb_neq. congruence.
Qed.

Create Rewrite HintDb world.
#[local] Hint Rewrite resumed_with_auth resumed_with_item interruption_with_auth
  interruption_with_item auth_resumed item_resumed unmounts_resumed
  negb_involutive app_nil_r classify_unreachable enhanced_unreachable
  instanceOfError_enhanced : world.

(** Reading the log of a sequence, of a suspension, of the probe and of
    [handleError]. *)
Lemma backend_calls_app a b : backend_calls (a ++ b) = backend_calls a ++ backend_calls b.
Proof. apply flat_map_app. Qed.

Lemma timers_app a b : timers (a ++ b) = timers a ++ timers b.
Proof. apply flat_map_app. Qed.

Lemma storage_writes_app a b : storage_writes (a ++ b) = storage_writes a ++ storage_writes b.
Proof. apply filter_app. Qed.

Lemma backend_calls_interruption w : backend_calls (interruption w) = [].
Proof. rewrite interruption_cases. destruct (hd false (unmounts w)); reflexivity. Qed.

Lemma timers_interruption w : timers (interruption w) = [].
Proof. rewrite interruption_cases. destruct (hd false (unmounts w)); reflexivity. Qed.

Lemma storage_writes_interruption w : storage_writes (interruption w) = [].
Proof. rewrite interruption_cases. destruct (hd false (unmounts w)); reflexivity. Qed.

Lemma backend_calls_handled_log e op : backend_calls (handled_log e op) = [].
Proof. unfold handled_log. destruct (marks_disconnected (classify e)); reflexivity. Qed.

Lemma timers_handled_log e op : timers (handled_log e op) = [].
Proof. unfold handled_log. destruct (marks_disconnected (classify e)); reflexivity. Qed.

Lemma storage_writes_handled_log e op : storage_writes (handled_log e op) = [].
Proof. unfold handled_log. destruct (marks_disconnected (classify e)); reflexivity. Qed.

Lemma backend_calls_probed_log h w : backend_calls (probed_log h w) = [GetSession].
Proof.
  unfold probed_log. cbn. rewrite backend_calls_app, backend_calls_interruption.
  reflexivity.
Qed.

Lemma timers_probed_log h w : timers (probed_log h w) = [].
Proof.
  unfold probed_log. cbn. rewrite timers_app, timers_interruption. reflexivity.
Qed.

Lemma storage_writes_probed_log h w : storage_writes (probed_log h w) = [].
Proof.
  unfold probed_log. cbn. rewrite storage_writes_app, storage_writes_interruption.
  reflexivity.
Qed.

Create Rewrite HintDb logs.
#[local] Hint Rewrite backend_calls_app timers_app storage_writes_app
  backend_calls_interruption timers_interruption storage_writes_interruption
  backend_calls_handled_log timers_handled_log storage_writes_handled_log
  backend_calls_probed_log timers_probed_log storage_writes_probed_log : logs.

Lemma wp_handleError (error : JsError) (operation : string) (w : World)
    (Q : Outcome JsError -> World -> list Effect -> Prop) :
  Q (Returns (enhanced error)) (with_auth (handled (mounted w) error) w)
    (handled_log error operation) ->
  wp (handleError error operation) w Q.
Proof.
  intro H; constructor; revert H.
  destruct w as [[u l i rp c le] item [|] su un];
    unfold handled, handled_log, enhanced, handleError, bind, perform, ret,
      setLastError, setConnectionStatus, setState; cbn;
    destruct (classify error); exact (fun H => H).
Qed.

Ltac unfold_wrappers :=
  unfold setUser, setLoading, setIsResettingPassword, setResetPasswordError,
    setConnectionStatus, setLastError, throw_handled in *.

Ltac bare x :=
  lazymatch x with
  | negb ?y => bare y
  | true => fail
  | false => fail
  | _ => destruct x eqn:?
  end.

Ltac wp_reduce :=
  cbv beta iota zeta;
  cbn [error data negb String.eqb Ascii.eqb Bool.eqb session_user_id session_user];
  rewrite ?instanceOfError_enhanced.

Ltac wp_primitive :=
  lazymatch goal with
  | |- wp (bind _ _) _ _ => apply wp_bind
  | |- wp (try_catch _ _) _ _ => apply wp_try_catch
  | |- wp (try_finally _ _) _ _ => apply wp_try_finally
  | |- wp (ret _) _ _ => apply wp_ret
  | |- wp (throw _) _ _ => apply wp_throw
  | |- wp (setState _) _ _ => apply wp_setState
  | |- wp (perform _) _ _ => apply wp_perform
  | |- wp (setItem _) _ _ => apply wp_setItem
  | |- wp removeItem _ _ => apply wp_removeItem
  | |- wp getItem _ _ => apply wp_getItem
  | |- wp (sleep _) _ _ => apply wp_sleep
  | |- wp suspend _ _ => apply wp_suspend
  | |- wp (handleError _ _) _ _ => apply wp_handleError
  | |- wp (await _ _) _ _ => apply wp_await
  | |- wp (if_mounted _) _ _ => apply wp_if_mounted; intro
  | |- wp (match ?x with _ => _ end) _ _ => bare x
  | |- match ?x with _ => _ end => bare x
  end;
  wp_reduce.

Lemma wp_testConnection (health : Settled (option Session)) (w : World)
    (Q : Outcome bool -> World -> list Effect -> Prop) :
  Q (Returns (negb (probe_fails health)))
    (with_auth (probed (mounted w) (mounted (resumed w)) health) (resumed w))
    (probed_log health w) ->
  wp (testConnection health) w Q.
Proof.
  intro H. unfold testConnection. unfold_wrappers.
  destruct health as [[d [err|]]|reason];
    unfold probed, probed_log, probe_fails in H; cbn in H;
    cbn [error data]; repeat wp_primitive;
    repeat match goal with E : mentions_network _ = _ |- _ => rewrite E in H end;
    autorewrite with world in *; cbn in *; exact H.
Qed.

Lemma wp_fetchUserProfile (userId : string) (row : Settled (option User)) (w : World)
    (Q : Outcome User -> World -> list Effect -> Prop) :
  Q (fetched row) (with_auth (fetch_state (mounted (resumed w)) row) (resumed w))
    (fetch_log userId row w) ->
  wp (fetchUserProfile userId row) w Q.
Proof.
  intro H. unfold fetchUserProfile. unfold_wrappers.
  assert (E : forall v, with_auth (fun s => s) v = v) by (intros []; reflexivity).
  destruct row as [[[d|] [err|]]|reason];
    unfold fetched, fetch_state, fetch_log, fetch_failure in H; cbn in H;
    cbn [error data]; repeat wp_primitive;
    repeat match goal with E' : instanceOfError _ = _ |- _ => rewrite E' in H end;
    autorewrite with world in *; cbn in *; rewrite ?E in H; exact H.
Qed.

Lemma user_fetch_state b row s : user (fetch_state b row s) = user s.
Proof. unfold fetch_state. destruct (fetch_failure row); reflexivity. Qed.

Lemma loading_fetch_state b row s : loading (fetch_state b row s) = loading s.
Proof. unfold fetch_state. destruct (fetch_failure row); reflexivity. Qed.

Lemma backend_calls_fetch_log userId row w :
  backend_calls (fetch_log userId row w) = [SelectUser userId].
Proof.
  unfold fetch_log. cbn. rewrite backend_calls_app, backend_calls_interruption.
  destruct (fetch_failure row); [rewrite backend_calls_handled_log|]; reflexivity.
Qed.

Lemma timers_fetch_log userId row w : timers (fetch_log userId row w) = [].
Proof.
  unfold fetch_log. cbn. rewrite timers_app, timers_interruption.
  destruct (fetch_failure row); [rewrite timers_handled_log|]; reflexivity.
Qed.

Lemma storage_writes_fetch_log userId row w : storage_writes (fetch_log userId row w) = [].
Proof.
  unfold fetch_log. cbn. rewrite storage_writes_app, storage_writes_interruption.
  destruct (fetch_failure row); [rewrite storage_writes_handled_log|]; reflexivity.
Qed.

#[local] Hint Rewrite user_fetch_state loading_fetch_state : world.
#[local] Hint Rewrite backend_calls_fetch_log timers_fetch_log storage_writes_fetch_log
  : logs.

Ltac wp_step :=
  lazymatch goal with
  | |- wp (fetchUserProfile _ _) _ _ => apply wp_fetchUserProfile; wp_reduce
  | |- wp (testConnection _) _ _ => apply wp_testConnection; wp_reduce
  | |- wp (onAuthStateChange _ _ _ _) _ _ => apply wp_onAuthStateChange; intro
  | |- wp (react _ _ _ _) _ _ => unfold react; unfold_wrappers
  | _ => wp_primitive
  end.

Ltac wp_go := unfold_wrappers; wp_reduce; repeat wp_step.

Ltac tidy :=
  cbn [outcome final events];
  repeat (progress (cbn; autorewrite with world logs)).

Ltac recall :=
  repeat match goal with
         | H : ?x = _ |- context [?x] => rewrite H
         end.

Ltac finish :=
  tidy; recall; tidy;
  repeat match goal with |- _ /\ _ => split end;
  try discriminate; try reflexivity; try congruence; auto.

(** The list before its last two items, for a right-nested sequence. *)
Ltac but_last_two l :=
  lazymatch l with
  | ?a ++ ([_] ++ [_]) => constr:(a)
  | ?a ++ ?b => let b' := but_last_two b in constr:(a ++ b')
  end.

Lemma mounted_resumed_true w : mounted (resumed w) = true -> mounted w = true.
Proof.
  rewrite mounted_resumed. destruct (hd false (unmounts w)); [discriminate | auto].
Qed.

(** From a consumer that is mounted at the end, mounted all along. *)
Ltac alive :=
  repeat match goal with
         | H : mounted _ = _ |- _ => progress (cbn in H; autorewrite with world in H)
         end;
  repeat match goal with
         | H : mounted (resumed ?X) = true |- _ =>
             lazymatch goal with
             | _ : mounted X = true |- _ => fail
             | _ => pose proof (mounted_resumed_true X H)
             end
         end.

Lemma opt_is_true (a : option string) (lit : string) :
  opt_is a lit = true <-> a = Some lit.
Proof.
  unfold opt_is. destruct a as [s|]; [|split; discriminate].
  rewrite String.eqb_eq. split; congruence.
Qed.

Lemma mentions_network_class e : mentions_network e = true <-> network_class e.
Proof. unfold mentions_network, network_class. apply orb_true_iff. Qed.

Lemma mentions_credentials_class e : mentions_credentials e = true <-> credentials_class e.
Proof.
  unfold mentions_credentials, credentials_class.
  rewrite orb_true_iff, opt_is_true. reflexivity.
Qed.

Lemma mentions_confirmation_class e :
  mentions_confirmation e = true <-> confirmation_class e.
Proof.
  unfold mentions_confirmation, confirmation_class.
  rewrite orb_true_iff, opt_is_true. reflexivity.
Qed.

Lemma mentions_duplicate_class e : mentions_duplicate e = true <-> duplicate_class e.
Proof.
  unfold mentions_duplicate, duplicate_class.
  rewrite orb_true_iff, opt_is_true. reflexivity.
Qed.

Lemma mentions_permission_class e : mentions_permission e = true <-> permission_class e.
Proof.
  unfold mentions_permission, permission_class.
  rewrite orb_true_iff, opt_is_true. reflexivity.
Qed.

Lemma mentions_server_class e : mentions_server e = true <-> server_class e.
Proof.
  unfold mentions_server, server_class, server_status.
  destruct (status e) as [n|].
  - rewrite existsb_exists. split.
    + intros [x [Hin Hx]]. apply Z.eqb_eq in Hx. subst x. exists n. auto.
    + intros [x [Hx Hin]]. injection Hx as <-. exists n. split; [exact Hin|].
      apply Z.eqb_refl.
  - split; [discriminate|]. intros [x [Hx _]]. discriminate.
Qed.

Lemma not_true_false (b : bool) (P : Prop) : (b = true <-> P) -> ~ P -> b = false.
Proof. destruct b; intros [H _] Hn; [elim Hn; auto | reflexivity]. Qed.
























(** ** The connection probe *)

(** C7, as the code has it: the probe first calls the setter with
    [checking] and only then the backend; a health call that reports a
    network failure, or that throws, makes it return [false], any other
    answer, an error that is not a network failure included, [true]; a
    consumer that is still mounted when the health call settles ends with
    [disconnected] in the first case and [connected] in the second, and one
    that was unmounted during the call keeps [checking]. *)
Theorem testConnection_probe (health : Settled (option Session)) (w : World) :
  let r := testConnection health w in
  (exists rest,
      events r = Write (SetConnectionStatus checking) :: Backend GetSession :: rest)
  /\ (reports_network_failure health = true ->
      outcome r = Returns false
      /\ (mounted (final r) = true -> connectionStatus (auth (final r)) = disconnected))
  /\ (probe_rejects health = false -> reports_network_failure health = false ->
      outcome r = Returns true
      /\ (mounted (final r) = true -> connectionStatus (auth (final r)) = connected))
  /\ (probe_rejects health = true ->
      outcome r = Returns false
      /\ (mounted (final r) = true -> connectionStatus (auth (final r)) = disconnected))
  /\ (mounted w = true -> mounted (final r) = false ->
      connectionStatus (auth (final r)) = checking).
Proof.
  intro r; subst r.
  pattern (testConnection health w); apply wp_run; apply wp_testConnection.
  unfold probed_log, probed, probe_fails; cbn [outcome final events].
  split; [eexists; reflexivity|].
  destruct (reports_network_failure health), (probe_rejects health);
    cbn; autorewrite with world;
    repeat split; intros; try discriminate; try reflexivity;
    repeat match goal with H : _ = _ |- _ => rewrite H end; reflexivity.
Qed.

Lemma testConnection_probe_witness :
  (outcome (testConnection (failed None fetchFailure) (mountedWorld None [])) = Returns false
   /\ (mounted (final (testConnection (failed None fetchFailure) (mountedWorld None [])))
       = true ->
       connectionStatus
         (auth (final (testConnection (failed None fetchFailure) (mountedWorld None []))))
       = disconnected))
  /\ connectionStatus
       (auth (final (testConnection (failed None sessionExpired) (mountedWorld None []))))
     = connected
  /\ connectionStatus
       (auth (final (testConnection (Rejected fetchFailure) (mountedWorld None [true]))))
     = checking.
Proof.
  split; [|split].
  - apply (proj1 (proj2 (testConnection_probe (failed None fetchFailure)
                                               (mountedWorld None [])))).
    reflexivity.
  - apply (proj1 (proj2 (proj2 (testConnection_probe (failed None sessionExpired)
                                                      (mountedWorld None []))))).
    + reflexivity.
    + reflexivity.
    + reflexivity.
  - apply (proj2 (proj2 (proj2 (proj2 (testConnection_probe (Rejected fetchFailure)
                                          (mountedWorld None [true])))))).
    + reflexivity.
    + reflexivity.
Defined.

(** C7 as stated fails: a probe whose consumer is unmounted while the
    health call is in flight returns [false] when the call throws, and
    [connectionStatus] is still [checking]. *)
Lemma probe_unmounted_keeps_checking :
  let r := testConnection (Rejected fetchFailure) (mountedWorld None [true]) in
  outcome r = Returns false
  /\ connectionStatus (auth (final r)) = checking
  /\ connectionStatus (auth (final r)) <> disconnected.
Proof. repeat split. discriminate. Qed.

(** ** The error classifier *)

Ltac settle_rules :=
  repeat match goal with
         | H : ~ network_class _ |- _ =>
             apply (not_true_false _ _ (mentions_network_class _)) in H
         | H : ~ credentials_class _ |- _ =>
             apply (not_true_false _ _ (mentions_credentials_class _)) in H
         | H : ~ confirmation_class _ |- _ =>
             apply (not_true_false _ _ (mentions_confirmation_class _)) in H
         | H : ~ duplicate_class _ |- _ =>
             apply (not_true_false _ _ (mentions_duplicate_class _)) in H
         | H : ~ permission_class _ |- _ =>
             apply (not_true_false _ _ (mentions_permission_class _)) in H
         | H : ~ server_class _ |- _ =>
             apply (not_true_false _ _ (mentions_server_class _)) in H
         | H : network_class _ |- _ => apply mentions_network_class in H
         | H : credentials_class _ |- _ => apply mentions_credentials_class in H
         | H : confirmation_class _ |- _ => apply mentions_confirmation_class in H
         | H : duplicate_class _ |- _ => apply mentions_duplicate_class in H
         | H : permission_class _ |- _ => apply mentions_permission_class in H
         | H : server_class _ |- _ => apply mentions_server_class in H
         end.

(** C5: [handleError] takes the first rule that matches, in the order
    network (the message contains fetch or network), credentials (the
    message contains Invalid login credentials, or the code is
    invalid_credentials), unconfirmed email, duplicate registration,
    permission (row-level security policy, or code 42501), server status
    (500, 502, 503 or 504), and otherwise passes a non-empty raw message
    through or falls back on a generic one; it logs the raw error, calls the
    [connectionStatus] setter with [disconnected] exactly in the network and
    server branches and the [lastError] setter with the enhanced error, and
    returns that error; in a mounted consumer the two fields end with these
    values, after the cleanup the state is unchanged; every other field and
    the storage are left alone. *)
Theorem handleError_first_match (error : JsError) (operation : string) (w : World) :
  let r := handleError error operation w in
  (network_class error -> classify error = NetworkError)
  /\ (~ network_class error -> credentials_class error ->
      classify error = InvalidCredentials)
  /\ (~ network_class error -> ~ credentials_class error ->
      confirmation_class error -> classify error = EmailNotConfirmed)
  /\ (~ network_class error -> ~ credentials_class error ->
      ~ confirmation_class error -> duplicate_class error ->
      classify error = UserAlreadyExists)
  /\ (~ network_class error -> ~ credentials_class error ->
      ~ confirmation_class error -> ~ duplicate_class error ->
      permission_class error -> classify error = PermissionDenied)
  /\ (~ network_class error -> ~ credentials_class error ->
      ~ confirmation_class error -> ~ duplicate_class error ->
      ~ permission_class error -> server_class error ->
      classify error = ServerUnavailable)
  /\ (~ network_class error -> ~ credentials_class error ->
      ~ confirmation_class error -> ~ duplicate_class error ->
      ~ permission_class error -> ~ server_class error ->
      classify error = Unknown)
  /\ (classify error = NetworkError -> enhanced error = newError networkMessage)
  /\ (classify error = InvalidCredentials -> enhanced error = newError credentialsMessage)
  /\ (classify error = EmailNotConfirmed -> enhanced error = newError confirmationMessage)
  /\ (classify error = UserAlreadyExists -> enhanced error = newError duplicateMessage)
  /\ (classify error = PermissionDenied -> enhanced error = newError permissionMessage)
  /\ (classify error = ServerUnavailable -> enhanced error = newError serverMessage)
  /\ (forall m, classify error = Unknown -> message error = Some m -> m <> EmptyString ->
      enhanced error = newError m)
  /\ (classify error = Unknown ->
      message error = None \/ message error = Some EmptyString ->
      enhanced error = newError fallbackMessage)
  /\ outcome r = Returns (enhanced error)
  /\ events r
     = AuthErrorLog operation error
       :: (if marks_disconnected (classify error)
           then [Write (SetConnectionStatus disconnected)] else [])
       ++ [Write (SetLastError (Some (enhanced error)))]
  /\ (mounted w = true ->
      lastError (auth (final r)) = Some (enhanced error)
      /\ connectionStatus (auth (final r))
         = (if marks_disconnected (classify error) then disconnected
            else connectionStatus (auth w)))
  /\ (mounted w = false -> auth (final r) = auth w)
  /\ user (auth (final r)) = user (auth w)
  /\ loading (auth (final r)) = loading (auth w)
  /\ isResettingPassword (auth (final r)) = isResettingPassword (auth w)
  /\ resetPasswordError (auth (final r)) = resetPasswordError (auth w)
  /\ rememberMeItem (final r) = rememberMeItem w.
Proof.
  intro r; subst r.
  pattern (handleError error operation w); apply wp_run; apply wp_handleError.
  unfold handled_log; cbn [outcome final events with_auth auth handled lastError
                           connectionStatus user loading isResettingPassword
                           resetPasswordError rememberMeItem].
  repeat match goal with |- _ /\ _ => split end;
    try reflexivity;
    try (unfold classify; intros; settle_rules;
         repeat match goal with H : _ = _ |- _ => rewrite H end; reflexivity);
    try (intros Hk; unfold enhanced; rewrite Hk; reflexivity).
  - intros m Hk Hm Hne. unfold enhanced. rewrite Hk, Hm.
    destruct m; [congruence | reflexivity].
  - intros Hk [Hm | Hm]; unfold enhanced; rewrite Hk, Hm; reflexivity.
  - intros ->; split; reflexivity.
  - intros ->. destruct (auth w); reflexivity.
Qed.

Lemma handleError_first_match_witness :
  classify fetchFailure = NetworkError
  /\ classify badPassword = InvalidCredentials
  /\ enhanced sessionExpired = newError "Session expired"
  /\ lastError (auth (final (handleError fetchFailure "signing in" (mountedWorld None []))))
     = Some (enhanced fetchFailure).
Proof.
  split; [|split; [|split]].
  - apply (proj1 (handleError_first_match fetchFailure "signing in" (mountedWorld None []))).
    left; reflexivity.
  - apply (proj1 (proj2 (handleError_first_match badPassword "signing in"
                                                  (mountedWorld None [])))).
    + intros [H | H]; vm_compute in H; discriminate H.
    + left; reflexivity.
  - apply (handleError_first_match sessionExpired "getting session" (mountedWorld None []))
      with (m := "Session expired").
    + reflexivity.
    + reflexivity.
    + discriminate.
  - apply (handleError_first_match fetchFailure "signing in" (mountedWorld None [])).
    reflexivity.
Defined.

(** ** The public actions *)


(** What each action leaves in [loading] when it settles in a consumer that
    is still mounted. *)
Lemma signUp_settles r rememberMe health created inserted w :
  mounted (final (signUp r rememberMe health created inserted w)) = true ->
  loading (auth (final (signUp r rememberMe health created inserted w))) = false.
Proof.
  pattern (signUp r rememberMe health created inserted w); apply wp_run.
  unfold signUp; wp_go; cbn [outcome final events]; intro Hm; alive; finish.
Qed.

Lemma signIn_settles rememberMe health verified w :
  mounted (final (signIn rememberMe health verified w)) = true ->
  loading (auth (final (signIn rememberMe health verified w))) = false.
Proof.
  pattern (signIn rememberMe health verified w); apply wp_run.
  unfold signIn; wp_go; cbn [outcome final events]; intro Hm; alive; finish.
Qed.

Lemma signOut_settles signedOut w :
  mounted (final (signOut signedOut w)) = true ->
  loading (auth (final (signOut signedOut w))) = false.
Proof.
  pattern (signOut signedOut w); apply wp_run.
  unfold signOut; wp_go; cbn [outcome final events]; intro Hm; alive; finish.
Qed.

Lemma updatePassword_settles updated w :
  mounted (final (updatePassword updated w)) = true ->
  loading (auth (final (updatePassword updated w))) = false.
Proof.
  pattern (updatePassword updated w); apply wp_run.
  unfold updatePassword; wp_go; cbn [outcome final events]; intro Hm; alive; finish.
Qed.

Lemma resetPassword_settles health requested w :
  mounted (final (resetPassword health requested w)) = true ->
  isResettingPassword (auth (final (resetPassword health requested w))) = false.
Proof.
  pattern (resetPassword health requested w); apply wp_run.
  unfold resetPassword; wp_go; cbn [outcome final events]; intro Hm; alive; finish.
Qed.

(** The bootstrap writes [loading] only to set it to [false], and does so
    on every path unless the consumer was unmounted meanwhile. *)
Lemma initializeAuth_settles health signedOut current row w :
  let r := initializeAuth health signedOut current row w in
  outcome r = Returns tt
  /\ (mounted (final r) = true -> loading (auth (final r)) = false)
  /\ (mounted (final r) = false -> loading (auth (final r)) = loading (auth w)).
Proof.
  intro r; subst r.
  pattern (initializeAuth health signedOut current row w); apply wp_run.
  unfold initializeAuth; wp_go; cbn [outcome final events];
    (split; [reflexivity|]); split; intro Hm; alive; finish.
Qed.

(** C4, as the code has it: in a consumer that is still mounted when the
    action settles, [loading] is [false] when [signUp], [signIn], [signOut]
    or [updatePassword] settles, and [isResettingPassword] when
    [resetPassword] does, whatever the backend answers; the bootstrap leaves
    [loading] at [false] when the consumer is still mounted as it settles,
    and untouched when the consumer was unmounted meanwhile. *)
Theorem loading_reset_when_settled
    (r : Role) (rememberMe : bool) (health : Settled (option Session))
    (created : Settled (option string))
    (inserted verified signedOut requested updated : Settled unit)
    (current : Settled (option Session)) (row : Settled (option User)) (w : World) :
  (mounted (final (signUp r rememberMe health created inserted w)) = true ->
   loading (auth (final (signUp r rememberMe health created inserted w))) = false)
  /\ (mounted (final (signIn rememberMe health verified w)) = true ->
      loading (auth (final (signIn rememberMe health verified w))) = false)
  /\ (mounted (final (signOut signedOut w)) = true ->
      loading (auth (final (signOut signedOut w))) = false)
  /\ (mounted (final (updatePassword updated w)) = true ->
      loading (auth (final (updatePassword updated w))) = false)
  /\ (mounted (final (resetPassword health requested w)) = true ->
      isResettingPassword (auth (final (resetPassword health requested w))) = false)
  /\ (mounted (final (initializeAuth health signedOut current row w)) = true ->
      loading (auth (final (initializeAuth health signedOut current row w))) = false)
  /\ (mounted (final (initializeAuth health signedOut current row w)) = false ->
      loading (auth (final (initializeAuth health signedOut current row w)))
      = loading (auth w)).
Proof.
  split; [apply signUp_settles|].
  split; [apply signIn_settles|].
  split; [apply signOut_settles|].
  split; [apply updatePassword_settles|].
  split; [apply resetPassword_settles|].
  exact (proj2 (initializeAuth_settles health signedOut current row w)).
Qed.

Lemma loading_reset_when_settled_witness :
  loading (auth (final (signIn false (fulfilled None) (fulfilled tt)
                               (mountedWorld None []))))
  = false
  /\ loading (auth (final (initializeAuth (fulfilled None) (fulfilled tt)
                                          (fulfilled janeSession) (fulfilled (Some jane))
                                          (mountedWorld (Some "true") []))))
     = false.
Proof.
  split.
  - apply (proj1 (proj2 (loading_reset_when_settled customer false (fulfilled None)
             (fulfilled None) (fulfilled tt) (fulfilled tt) (fulfilled tt) (fulfilled tt)
             (fulfilled tt) (fulfilled janeSession) (fulfilled (Some jane))
             (mountedWorld None [])))).
    reflexivity.
  - apply (proj1 (proj2 (proj2 (proj2 (proj2 (proj2
             (loading_reset_when_settled customer false (fulfilled None)
             (fulfilled None) (fulfilled tt) (fulfilled tt) (fulfilled tt) (fulfilled tt)
             (fulfilled tt) (fulfilled janeSession) (fulfilled (Some jane))
             (mountedWorld (Some "true") [])))))))).
    reflexivity.
Defined.

(** C4 as stated fails: a bootstrap whose consumer is unmounted while the
    probe is in flight settles and leaves [loading] at [true], and so does
    a [signIn]. *)
Lemma bootstrap_unmounted_keeps_loading :
  let r := initializeAuth (Rejected fetchFailure) (fulfilled tt) (fulfilled None)
                          (fulfilled None) (mountedWorld None [true]) in
  let a := signIn false (fulfilled None) (fulfilled tt) (mountedWorld None [true]) in
  outcome r = Returns tt /\ loading (auth (final r)) = true
  /\ outcome a = Returns tt /\ loading (auth (final a)) = true.
Proof. repeat split; reflexivity. Qed.

(** ** The remember-me flag *)

Lemma signUp_keeps_flag r rememberMe health created inserted w :
  let s := signUp r rememberMe health created inserted w in
  forall e, outcome s = Throws e ->
    rememberMeItem (final s) = rememberMeItem w /\ storage_writes (events s) = [].
Proof.
  intro s; subst s.
  pattern (signUp r rememberMe health created inserted w); apply wp_run.
  unfold signUp; wp_go; cbn [outcome]; intros e He; try discriminate; finish.
Qed.

Lemma signIn_keeps_flag rememberMe health verified w :
  let s := signIn rememberMe health verified w in
  forall e, outcome s = Throws e ->
    rememberMeItem (final s) = rememberMeItem w /\ storage_writes (events s) = [].
Proof.
  intro s; subst s.
  pattern (signIn rememberMe health verified w); apply wp_run.
  unfold signIn; wp_go; cbn [outcome]; intros e He; try discriminate; finish.
Qed.

Lemma signUp_sets_flag_last r rememberMe health created inserted w :
  let s := signUp r rememberMe health created inserted w in
  outcome s = Returns tt ->
  probe_fails health = false
  /\ exists rep userId,
      created = Fulfilled rep /\ error rep = None /\ data rep = Some userId
      /\ (exists ins, inserted = Fulfilled ins /\ error ins = None)
      /\ exists before,
          events s = before ++ [sets_flag rememberMe] ++ [Write (SetLoading false)]
          /\ backend_calls before = [GetSession; AuthSignUp; InsertUser userId r]
          /\ storage_writes before = [].
Proof.
  intro s; subst s.
  pattern (signUp r rememberMe health created inserted w); apply wp_run.
  unfold signUp; wp_go; cbn [outcome events]; intros He; try discriminate.
  all: split; [reflexivity|]; do 2 eexists; repeat (split; [eauto; fail|]).
  all: match goal with
       | |- exists before, ?l = _ /\ _ =>
           let b := but_last_two l in exists b
       end.
  all: split; [rewrite <- ?app_assoc; reflexivity | finish].
Qed.

Lemma signIn_sets_flag_last rememberMe health verified w :
  let s := signIn rememberMe health verified w in
  outcome s = Returns tt ->
  probe_fails health = false
  /\ (exists rep, verified = Fulfilled rep /\ error rep = None)
  /\ exists before,
      events s = before ++ [sets_flag rememberMe] ++ [Write (SetLoading false)]
      /\ backend_calls before = [GetSession; SignInWithPassword]
      /\ storage_writes before = [].
Proof.
  intro s; subst s.
  pattern (signIn rememberMe health verified w); apply wp_run.
  unfold signIn; wp_go; cbn [outcome events]; intros He; try discriminate.
  all: split; [reflexivity|]; split; [eauto|].
  all: match goal with
       | |- exists before, ?l = _ /\ _ =>
           let b := but_last_two l in exists b
       end.
  all: split; [rewrite <- ?app_assoc; reflexivity | finish].
Qed.

(** C9: [signUp] and [signIn] write or remove the remember-me item only
    after the probe and every backend step have succeeded, as the last
    thing before [setLoading(false)]; when they throw, the item is as it
    was and the log holds no write to the storage. *)
Theorem flag_touched_only_on_success
    (r : Role) (rememberMe : bool) (health : Settled (option Session))
    (created : Settled (option string)) (inserted verified : Settled unit) (w : World) :
  (forall e, outcome (signUp r rememberMe health created inserted w) = Throws e ->
     rememberMeItem (final (signUp r rememberMe health created inserted w))
     = rememberMeItem w
     /\ storage_writes (events (signUp r rememberMe health created inserted w)) = [])
  /\ (forall e, outcome (signIn rememberMe health verified w) = Throws e ->
     rememberMeItem (final (signIn rememberMe health verified w)) = rememberMeItem w
     /\ storage_writes (events (signIn rememberMe health verified w)) = [])
  /\ (outcome (signUp r rememberMe health created inserted w) = Returns tt ->
      probe_fails health = false
      /\ exists rep userId,
          created = Fulfilled rep /\ error rep = None /\ data rep = Some userId
          /\ (exists ins, inserted = Fulfilled ins /\ error ins = None)
          /\ exists before,
              events (signUp r rememberMe health created inserted w)
              = before ++ [sets_flag rememberMe] ++ [Write (SetLoading false)]
              /\ backend_calls before = [GetSession; AuthSignUp; InsertUser userId r]
              /\ storage_writes before = [])
  /\ (outcome (signIn rememberMe health verified w) = Returns tt ->
      probe_fails health = false
      /\ (exists rep, verified = Fulfilled rep /\ error rep = None)
      /\ exists before,
          events (signIn rememberMe health verified w)
          = before ++ [sets_flag rememberMe] ++ [Write (SetLoading false)]
          /\ backend_calls before = [GetSession; SignInWithPassword]
          /\ storage_writes before = []).
Proof.
  split; [exact (signUp_keeps_flag r rememberMe health created inserted w)|].
  split; [exact (signIn_keeps_flag rememberMe health verified w)|].
  split; [exact (signUp_sets_flag_last r rememberMe health created inserted w)|].
  exact (signIn_sets_flag_last rememberMe health verified w).
Qed.

Lemma flag_touched_only_on_success_witness :
  rememberMeItem
    (final (signUp customer false (fulfilled None) (failed None sessionExpired)
                   (fulfilled tt) (mountedWorld (Some "true") [])))
  = Some "true"
  /\ storage_writes
       (events (signUp customer false (fulfilled None) (failed None sessionExpired)
                       (fulfilled tt) (mountedWorld (Some "true") [])))
     = [].
Proof.
  apply (proj1 (flag_touched_only_on_success customer false (fulfilled None)
                  (failed None sessionExpired) (fulfilled tt) (fulfilled tt)
                  (mountedWorld (Some "true") [])))
    with (e := enhanced sessionExpired).
  reflexivity.
Defined.

(** ** The probe gate *)

Lemma probe_verdict health w :
  outcome (testConnection health w) = Returns (negb (probe_fails health)).
Proof.
  pattern (testConnection health w); apply wp_run; apply wp_testConnection.
  reflexivity.
Qed.

Lemma probe_failed health w :
  outcome (testConnection health w) = Returns false -> probe_fails health = true.
Proof.
  rewrite probe_verdict. destruct (probe_fails health); [reflexivity | discriminate].
Qed.

Lemma probe_succeeded health w :
  outcome (testConnection health w) = Returns true -> probe_fails health = false.
Proof.
  rewrite probe_verdict. destruct (probe_fails health); [discriminate | reflexivity].
Qed.

Lemma unreachable_is_unknown : classified_as Unknown unreachableError.
Proof. exists unreachableError. split; reflexivity. Qed.

Lemma unreachable_is_not_network : ~ classified_as NetworkError unreachableError.
Proof.
  intros [raw [Hk He]]. unfold enhanced in He. rewrite Hk in He. discriminate He.
Qed.

Ltac gate :=
  wp_go; try congruence; cbn [outcome final events];
  repeat match goal with |- _ /\ _ => split end;
  try (intro Hm; alive); finish.

Lemma signUp_gate r rememberMe health created inserted w :
  probe_fails health = true ->
  let s := signUp r rememberMe health created inserted w in
  outcome s = Throws unreachableError
  /\ backend_calls (events s) = [GetSession]
  /\ (mounted (final s) = true ->
      connectionStatus (auth (final s)) = disconnected
      /\ lastError (auth (final s)) = Some unreachableError
      /\ loading (auth (final s)) = false).
Proof.
  intros Hp s; subst s.
  pattern (signUp r rememberMe health created inserted w); apply wp_run.
  unfold signUp; gate.
Qed.

Lemma signIn_gate rememberMe health verified w :
  probe_fails health = true ->
  let s := signIn rememberMe health verified w in
  outcome s = Throws unreachableError
  /\ backend_calls (events s) = [GetSession]
  /\ (mounted (final s) = true ->
      connectionStatus (auth (final s)) = disconnected
      /\ lastError (auth (final s)) = Some unreachableError
      /\ loading (auth (final s)) = false).
Proof.
  intros Hp s; subst s.
  pattern (signIn rememberMe health verified w); apply wp_run.
  unfold signIn; gate.
Qed.

Lemma resetPassword_gate health requested w :
  probe_fails health = true ->
  let s := resetPassword health requested w in
  outcome s = Throws unreachableError
  /\ backend_calls (events s) = [GetSession]
  /\ (mounted (final s) = true ->
      connectionStatus (auth (final s)) = disconnected
      /\ lastError (auth (final s)) = Some unreachableError
      /\ resetPasswordError (auth (final s)) = message unreachableError
      /\ isResettingPassword (auth (final s)) = false).
Proof.
  intros Hp s; subst s.
  pattern (resetPassword health requested w); apply wp_run.
  unfold resetPassword; gate.
Qed.

(** C3, as the code has it: when the probe of [signUp], [signIn] or
    [resetPassword] fails, the action calls the backend for the probe only
    and throws the error built from "Unable to connect to authentication
    service", which [handleError] takes through its last branch (the
    [Unknown] kind, message passed through) and not through the network
    branch; in a consumer that is still mounted when the action settles,
    [connectionStatus] is [disconnected], as the probe left it, and
    [lastError] holds that error. *)
Theorem failed_probe_aborts
    (r : Role) (rememberMe : bool) (health : Settled (option Session))
    (created : Settled (option string)) (inserted verified requested : Settled unit)
    (w : World) :
  outcome (testConnection health w) = Returns false ->
  (outcome (signUp r rememberMe health created inserted w) = Throws unreachableError
   /\ backend_calls (events (signUp r rememberMe health created inserted w)) = [GetSession]
   /\ (mounted (final (signUp r rememberMe health created inserted w)) = true ->
       connectionStatus (auth (final (signUp r rememberMe health created inserted w)))
       = disconnected
       /\ lastError (auth (final (signUp r rememberMe health created inserted w)))
          = Some unreachableError))
  /\ (outcome (signIn rememberMe health verified w) = Throws unreachableError
      /\ backend_calls (events (signIn rememberMe health verified w)) = [GetSession]
      /\ (mounted (final (signIn rememberMe health verified w)) = true ->
          connectionStatus (auth (final (signIn rememberMe health verified w)))
          = disconnected
          /\ lastError (auth (final (signIn rememberMe health verified w)))
             = Some unreachableError))
  /\ (outcome (resetPassword health requested w) = Throws unreachableError
      /\ backend_calls (events (resetPassword health requested w)) = [GetSession]
      /\ (mounted (final (resetPassword health requested w)) = true ->
          connectionStatus (auth (final (resetPassword health requested w)))
          = disconnected
          /\ lastError (auth (final (resetPassword health requested w)))
             = Some unreachableError))
  /\ classified_as Unknown unreachableError
  /\ ~ classified_as NetworkError unreachableError.
Proof.
  intro Hprobe. apply probe_failed in Hprobe.
  split; [|split; [|split; [|split]]].
  - destruct (signUp_gate r rememberMe health created inserted w Hprobe)
      as (H1 & H2 & H3). repeat split; auto; apply H3; assumption.
  - destruct (signIn_gate rememberMe health verified w Hprobe)
      as (H1 & H2 & H3). repeat split; auto; apply H3; assumption.
  - destruct (resetPassword_gate health requested w Hprobe)
      as (H1 & H2 & H3). repeat split; auto; apply H3; assumption.
  - exact unreachable_is_unknown.
  - exact unreachable_is_not_network.
Qed.

Lemma failed_probe_aborts_witness :
  outcome (signUp customer false (Rejected fetchFailure) (fulfilled (Some "u1"))
                  (fulfilled tt) (mountedWorld None []))
  = Throws unreachableError
  /\ connectionStatus
       (auth (final (signUp customer false (Rejected fetchFailure) (fulfilled (Some "u1"))
                            (fulfilled tt) (mountedWorld None []))))
     = disconnected.
Proof.
  split.
  - apply (failed_probe_aborts customer false (Rejected fetchFailure)
             (fulfilled (Some "u1")) (fulfilled tt) (fulfilled tt) (fulfilled tt)
             (mountedWorld None [])).
    reflexivity.
  - apply (failed_probe_aborts customer false (Rejected fetchFailure)
             (fulfilled (Some "u1")) (fulfilled tt) (fulfilled tt) (fulfilled tt)
             (mountedWorld None [])).
    + reflexivity.
    + reflexivity.
Defined.

(** C3 as stated fails: [signUp("a@b.com", "pw", "Jane")] with an
    unreachable backend throws an error that no network classification
    produces; and when the consumer is unmounted while the probe is in
    flight, [connectionStatus] is left at [checking]. *)
Lemma unreachable_signUp_not_network :
  (~ exists e,
      outcome (signUp customer false (Rejected fetchFailure) (fulfilled (Some "u1"))
                      (fulfilled tt) (mountedWorld None []))
      = Throws e
      /\ classified_as NetworkError e)
  /\ connectionStatus
       (auth (final (signUp customer false (Rejected fetchFailure) (fulfilled (Some "u1"))
                            (fulfilled tt) (mountedWorld None [true]))))
     = checking.
Proof.
  split; [|reflexivity].
  intros [e [He Hk]].
  assert (e = unreachableError) as ->
    by (vm_compute in He; injection He as <-; reflexivity).
  exact (unreachable_is_not_network Hk).
Qed.

(** ** The bootstrap *)

Ltac flag_hyps :=
  repeat match goal with
         | H : opt_is _ _ = _ |- _ => progress (cbn in H; autorewrite with world in H)
         end.

Ltac mounted_hyps :=
  repeat match goal with
         | H : mounted _ = _ |- _ => progress (cbn in H; autorewrite with world in H)
         end.

Lemma initializeAuth_without_flag health signedOut current row w :
  probe_fails health = false ->
  rememberMeItem w <> Some "true" ->
  let r := initializeAuth health signedOut current row w in
  outcome r = Returns tt
  /\ backend_calls (events r) = [GetSession; AuthSignOut]
  /\ (mounted (final r) = true ->
      user (auth (final r)) = None /\ loading (auth (final r)) = false)
  /\ (mounted (final r) = false ->
      user (auth (final r)) = user (auth w) /\ loading (auth (final r)) = loading (auth w)).
Proof.
  intros Hp Hflag r; subst r.
  pattern (initializeAuth health signedOut current row w); apply wp_run.
  unfold initializeAuth; wp_go; try congruence; flag_hyps;
    try (rewrite opt_is_false in * by assumption; discriminate).
  all: cbn [outcome final events]; split; [reflexivity|]; split; [finish|].
  all: split; intro Hm; mounted_hyps; try congruence; finish.
Qed.

(** C6, as the code has it: when the probe succeeds and the remember-me
    item is absent or is not "true", the bootstrap calls the backend for
    the probe and for a sign-out only, whatever session the backend holds,
    and never throws; it ends with [user] at [null] and [loading] at [false]
    when the consumer is still mounted as the sign-out settles, and leaves
    both untouched when the consumer was unmounted meanwhile. *)
Theorem bootstrap_without_flag
    (health : Settled (option Session)) (signedOut : Settled unit)
    (current : Settled (option Session)) (row : Settled (option User)) (w : World) :
  outcome (testConnection health w) = Returns true ->
  rememberMeItem w <> Some "true" ->
  outcome (initializeAuth health signedOut current row w) = Returns tt
  /\ backend_calls (events (initializeAuth health signedOut current row w))
     = [GetSession; AuthSignOut]
  /\ (mounted (final (initializeAuth health signedOut current row w)) = true ->
      user (auth (final (initializeAuth health signedOut current row w))) = None
      /\ loading (auth (final (initializeAuth health signedOut current row w))) = false)
  /\ (mounted (final (initializeAuth health signedOut current row w)) = false ->
      user (auth (final (initializeAuth health signedOut current row w))) = user (auth w)
      /\ loading (auth (final (initializeAuth health signedOut current row w)))
         = loading (auth w)).
Proof.
  intros Hprobe Hflag. apply probe_succeeded in Hprobe.
  exact (initializeAuth_without_flag health signedOut current row w Hprobe Hflag).
Qed.

Lemma bootstrap_without_flag_witness :
  user (auth (final (initializeAuth (fulfilled janeSession) (fulfilled tt)
                                    (fulfilled janeSession) (fulfilled (Some jane))
                                    (mountedWorld None [])))) = None
  /\ loading (auth (final (initializeAuth (fulfilled janeSession) (fulfilled tt)
                                          (fulfilled janeSession) (fulfilled (Some jane))
                                          (mountedWorld None [])))) = false.
Proof.
  apply (bootstrap_without_flag (fulfilled janeSession) (fulfilled tt)
           (fulfilled janeSession) (fulfilled (Some jane)) (mountedWorld None [])).
  - reflexivity.
  - discriminate.
  - reflexivity.
Defined.

(** C6 as stated fails: with a reachable backend and no remember-me item,
    a bootstrap whose consumer is unmounted while the sign-out is in flight
    ends with [loading] still [true]. *)
Lemma bootstrap_without_flag_unmounted :
  let w := mountedWorld None [false; true] in
  let r := initializeAuth (fulfilled janeSession) (fulfilled tt)
                          (fulfilled janeSession) (fulfilled (Some jane)) w in
  outcome (testConnection (fulfilled janeSession) w) = Returns true
  /\ rememberMeItem w = None
  /\ backend_calls (events r) = [GetSession; AuthSignOut]
  /\ ~ (user (auth (final r)) = None /\ loading (auth (final r)) = false).
Proof.
  repeat split. intros [_ H]. discriminate H.
Qed.

(** ** The event reactor *)

(** An unmounted consumer's handler returns at once. *)
Lemma handler_unmounted event session row retried w :
  mounted w = false ->
  onAuthStateChange event session row retried w
  = {| outcome := Returns tt; final := w; events := [] |}.
Proof. intro H. unfold onAuthStateChange. rewrite H. reflexivity. Qed.

(** Once the cleanup has run, no event reaches the handler. *)
Lemma dispatch_after_cleanup event session row retried w :
  dispatch event session row retried (cleanup w)
  = {| outcome := Returns tt; final := cleanup w; events := [] |}.
Proof. reflexivity. Qed.

(** C8: on a PASSWORD_RECOVERY event the handler of a mounted consumer
    writes [loading := false] and nothing else: no other field of the state
    changes, the storage is not touched and no profile is fetched. *)
Theorem password_recovery_only_clears_loading
    (session : option Session) (row retried : Settled (option User)) (w : World) :
  mounted w = true ->
  outcome (onAuthStateChange "PASSWORD_RECOVERY" session row retried w) = Returns tt
  /\ events (onAuthStateChange "PASSWORD_RECOVERY" session row retried w)
     = [Write (SetLoading false)]
  /\ auth (final (onAuthStateChange "PASSWORD_RECOVERY" session row retried w))
     = {| user := user (auth w);
          loading := false;
          isResettingPassword := isResettingPassword (auth w);
          resetPasswordError := resetPasswordError (auth w);
          connectionStatus := connectionStatus (auth w);
          lastError := lastError (auth w) |}
  /\ rememberMeItem (final (onAuthStateChange "PASSWORD_RECOVERY" session row retried w))
     = rememberMeItem w
  /\ mounted (final (onAuthStateChange "PASSWORD_RECOVERY" session row retried w)) = true
  /\ backend_calls (events (onAuthStateChange "PASSWORD_RECOVERY" session row retried w))
     = [].
Proof.
  intro Hm.
  pattern (onAuthStateChange "PASSWORD_RECOVERY" session row retried w); apply wp_run.
  wp_go; try congruence; finish.
Qed.

Lemma password_recovery_only_clears_loading_witness :
  events (onAuthStateChange "PASSWORD_RECOVERY" janeSession (fulfilled (Some jane))
                            (fulfilled (Some jane)) (mountedWorld None []))
  = [Write (SetLoading false)].
Proof.
  apply (password_recovery_only_clears_loading janeSession (fulfilled (Some jane))
           (fulfilled (Some jane)) (mountedWorld None [])).
  reflexivity.
Defined.

(** What the profile lookup gives depends on the answer of the store alone. *)
Lemma fetchUserProfile_outcome userId row w :
  outcome (fetchUserProfile userId row w) = fetched row.
Proof.
  pattern (fetchUserProfile userId row w); apply wp_run.
  apply wp_fetchUserProfile. reflexivity.
Qed.

(** The reaction to an event that carries a session: one lookup, a second
    one exactly when the first failure looks like a missing row, whatever
    the event is, and never a third; in a consumer that is still mounted at
    the end, [loading] is [false] and [user] is what the last lookup gave. *)
Lemma reactor_session_event event userId row retried w :
  mounted w = true ->
  String.eqb event "SIGNED_OUT" = false ->
  String.eqb event "PASSWORD_RECOVERY" = false ->
  let r := onAuthStateChange event (Some {| session_user := Some userId |})
                             row retried w in
  outcome r = Returns tt
  /\ (mounted (final r) = true -> loading (auth (final r)) = false)
  /\ match fetched row with
     | Returns u =>
         (mounted (final r) = true -> user (auth (final r)) = Some u)
         /\ backend_calls (events r) = [SelectUser userId]
         /\ timers (events r) = grace event
     | Throws e =>
         if looks_not_found e
         then backend_calls (events r) = [SelectUser userId; SelectUser userId]
              /\ timers (events r) = grace event ++ [2000%Z]
              /\ (mounted (final r) = true ->
                  user (auth (final r))
                  = match fetched retried with
                    | Returns u => Some u
                    | Throws _ => None
                    end)
         else backend_calls (events r) = [SelectUser userId]
              /\ timers (events r) = grace event
              /\ (mounted (final r) = true -> user (auth (final r)) = None)
     end.
Proof.
  intros Hm Hout Hrec r; subst r. unfold grace, looks_not_found.
  pattern (onAuthStateChange event (Some {| session_user := Some userId |}) row retried w);
    apply wp_run.
  wp_go; try congruence.
  all: cbn [outcome final events]; split; [reflexivity|];
    split; [intro Hf; alive; finish|].
  all: tidy; recall; tidy; repeat split; try reflexivity; intro Hf; alive; finish.
Qed.



(** The setters are still called after the teardown: in the handler when
    the lookup resolves, in the bootstrap by the probe and by the error
    handler; the calls reach an unmounted consumer and the state stays as
    it was at the teardown. *)
Lemma late_setter_calls_change_nothing :
  let w := mountedWorld None [true] in
  let r := onAuthStateChange "SIGNED_IN" janeSession (fulfilled (Some jane))
                             (fulfilled (Some jane)) w in
  events r
  = [Write (SetLoading true); Backend (SelectUser "u1"); Unmount;
     Write (SetUser (Some jane)); Write (SetLoading false)]
  /\ mounted (final r) = false
  /\ subscribed (final r) = false
  /\ state_writes (after_unmount (events r)) = [SetUser (Some jane); SetLoading false]
  /\ auth (final r) = apply_write (SetLoading true) (auth w)
  /\ state_writes
       (after_unmount
          (events (initializeAuth (fulfilled None) (fulfilled tt) (fulfilled None)
                                  (fulfilled None) (mountedWorld None [true]))))
     = [SetConnectionStatus connected].
Proof. repeat split. Qed.

(** C2, where the handler departs from it: on a SIGNED_IN event whose
    first lookup fails with a missing row, the handler waits 2000ms and
    looks the profile up a second time, although its comment reserves the
    retry for a new sign-up. *)
Theorem retry_on_sign_in :
  let r := onAuthStateChange "SIGNED_IN" janeSession (failed None rowMissing)
                             (fulfilled (Some jane)) (mountedWorld None []) in
  timers (events r) = [2000%Z]
  /\ backend_calls (events r) = [SelectUser "u1"; SelectUser "u1"]
  /\ user (auth (final r)) = Some jane
  /\ loading (auth (final r)) = false.
Proof. repeat split. Qed.

(** ** More on the classifier *)

Lemma classify_unknown_tests raw :
  classify raw = Unknown ->
  mentions_network raw = false /\ mentions_credentials raw = false
  /\ mentions_confirmation raw = false /\ mentions_duplicate raw = false
  /\ mentions_permission raw = false /\ mentions_server raw = false.
Proof.
  unfold classify.
  destruct (mentions_network raw); [discriminate|].
  destruct (mentions_credentials raw); [discriminate|].
  destruct (mentions_confirmation raw); [discriminate|].
  destruct (mentions_duplicate raw); [discriminate|].
  destruct (mentions_permission raw); [discriminate|].
  destruct (mentions_server raw); [discriminate|].
  intros _. repeat split.
Qed.

Lemma classify_passed_through raw a m :
  classify raw = Unknown -> message raw = Some (String a m) ->
  classify (newError (String a m)) = Unknown.
Proof.
  intros K Hm. apply classify_unknown_tests in K.
  destruct K as (H1 & H2 & H3 & H4 & H5 & _).
  unfold mentions_network, mentions_credentials, mentions_confirmation,
    mentions_duplicate, mentions_permission in *.
  rewrite Hm in *.
  apply orb_false_elim in H2, H3, H4, H5.
  destruct H2 as [H2 _], H3 as [H3 _], H4 as [H4 _], H5 as [H5 _].
  unfold classify, mentions_network, mentions_credentials, mentions_confirmation,
    mentions_duplicate, mentions_permission, mentions_server, newError;
    cbn [message code status].
  rewrite H1, H2, H3, H4, H5. reflexivity.
Qed.

(** What [handleError] returns is stable: classified again, an enhanced
    error takes the last branch, marks nothing as disconnected and keeps its
    message. *)
Theorem enhanced_is_stable (raw : JsError) :
  classify (enhanced raw) = Unknown
  /\ marks_disconnected (classify (enhanced raw)) = false
  /\ enhanced (enhanced raw) = enhanced raw.
Proof.
  assert (K : classify (enhanced raw) = Unknown).
  { unfold enhanced. destruct (classify raw) eqn:E; try reflexivity.
    destruct (message raw) as [[|a m]|] eqn:Hm; try reflexivity.
    exact (classify_passed_through raw a m E Hm). }
  split; [exact K|]. split; [rewrite K; reflexivity|].
  unfold enhanced at 1. rewrite K.
  unfold enhanced. destruct (classify raw); try reflexivity.
  destruct (message raw) as [[|a m]|]; reflexivity.
Qed.

(** Only an error of the [Unknown] kind can carry a message that makes the
    handler retry: the fixed messages of the other kinds never match. *)
Theorem retried_errors_are_unknown (raw : JsError) :
  looks_not_found (enhanced raw) = true -> classify raw = Unknown.
Proof.
  unfold enhanced. destruct (classify raw); try reflexivity; intro H;
    vm_compute in H; discriminate H.
Qed.

Lemma retried_errors_are_unknown_witness : classify rowMissing = Unknown.
Proof. apply (retried_errors_are_unknown rowMissing). reflexivity. Defined.

(** ** More on the event reactor *)

Lemma reactor_session_event_witness :
  loading (auth (final (onAuthStateChange "SIGNED_UP"
                          (Some {| session_user := Some "u1" |})
                          (failed None rowMissing) (fulfilled (Some jane))
                          (mountedWorld None []))))
  = false.
Proof.
  apply (proj1 (proj2 (reactor_session_event "SIGNED_UP" "u1" (failed None rowMissing)
                         (fulfilled (Some jane)) (mountedWorld None [])
                         eq_refl eq_refl eq_refl))).
  reflexivity.
Defined.

(** The handler never touches the remember-me item, whatever the event:
    a SIGNED_OUT event leaves the persisted flag where it is. *)
Theorem reactor_keeps_storage
    (event : string) (session : option Session)
    (row retried : Settled (option User)) (w : World) :
  rememberMeItem (final (onAuthStateChange event session row retried w)) = rememberMeItem w
  /\ storage_writes (events (onAuthStateChange event session row retried w)) = [].
Proof.
  pattern (onAuthStateChange event session row retried w); apply wp_run.
  wp_go; finish.
Qed.

(** On SIGNED_OUT, and on any event but PASSWORD_RECOVERY that carries no
    user, the handler of a mounted consumer writes [user := null] and
    [loading := false] and does nothing else: no lookup, no wait. *)
Theorem reactor_without_user
    (event : string) (session : option Session)
    (row retried : Settled (option User)) (w : World) :
  mounted w = true ->
  String.eqb event "SIGNED_OUT" = true
  \/ (String.eqb event "PASSWORD_RECOVERY" = false /\ session_user_id session = None) ->
  outcome (onAuthStateChange event session row retried w) = Returns tt
  /\ events (onAuthStateChange event session row retried w)
     = [Write (SetUser None); Write (SetLoading false)]
  /\ user (auth (final (onAuthStateChange event session row retried w))) = None
  /\ loading (auth (final (onAuthStateChange event session row retried w))) = false.
Proof.
  intros Hm Hcase.
  pattern (onAuthStateChange event session row retried w); apply wp_run.
  wp_go; try congruence.
  all: try (finish; fail).
  all: destruct Hcase as [H1 | [H1 H2]]; congruence.
Qed.

Lemma reactor_without_user_witness :
  events (onAuthStateChange "SIGNED_OUT" janeSession (fulfilled (Some jane))
                            (fulfilled (Some jane)) (mountedWorld (Some "true") []))
  = [Write (SetUser None); Write (SetLoading false)].
Proof.
  apply (reactor_without_user "SIGNED_OUT" janeSession (fulfilled (Some jane))
           (fulfilled (Some jane)) (mountedWorld (Some "true") [])).
  - reflexivity.
  - left. reflexivity.
Defined.

(** ** More on the actions *)

(** A sign-out that the backend accepts removes the remember-me item,
    whatever it was before, and in a consumer that is still mounted ends
    with [user] at [null], so that signing out twice is the same as signing
    out once; one that the backend refuses throws the enhanced error and
    leaves [user] and the item alone. *)
Theorem signOut_outcomes (rep : Reply unit) (w : World) :
  (error rep = None ->
   outcome (signOut (Fulfilled rep) w) = Returns tt
   /\ rememberMeItem (final (signOut (Fulfilled rep) w)) = None
   /\ backend_calls (events (signOut (Fulfilled rep) w)) = [AuthSignOut]
   /\ storage_writes (events (signOut (Fulfilled rep) w)) = [StorageRemoveItem]
   /\ (mounted (final (signOut (Fulfilled rep) w)) = true ->
       user (auth (final (signOut (Fulfilled rep) w))) = None
       /\ loading (auth (final (signOut (Fulfilled rep) w))) = false
       /\ lastError (auth (final (signOut (Fulfilled rep) w))) = None))
  /\ (forall err, error rep = Some err ->
      outcome (signOut (Fulfilled rep) w) = Throws (enhanced err)
      /\ rememberMeItem (final (signOut (Fulfilled rep) w)) = rememberMeItem w
      /\ user (auth (final (signOut (Fulfilled rep) w))) = user (auth w)
      /\ storage_writes (events (signOut (Fulfilled rep) w)) = []
      /\ (mounted (final (signOut (Fulfilled rep) w)) = true ->
          loading (auth (final (signOut (Fulfilled rep) w))) = false
          /\ lastError (auth (final (signOut (Fulfilled rep) w)))
             = Some (enhanced err))).
Proof.
  pattern (signOut (Fulfilled rep) w); apply wp_run.
  unfold signOut; wp_go.
  all: split; [intro H | intros err H]; try congruence.
  all: cbn [outcome final events];
    repeat match goal with |- _ /\ _ => split end; try (intro Hf; alive); finish.
Qed.

Lemma signOut_outcomes_witness :
  rememberMeItem (final (signOut (fulfilled tt) (mountedWorld (Some "true") []))) = None
  /\ user (auth (final (signOut (fulfilled tt) (mountedWorld (Some "true") [])))) = None.
Proof.
  split.
  - apply (proj1 (signOut_outcomes {| data := tt; error := None |}
                    (mountedWorld (Some "true") []))).
    reflexivity.
  - apply (proj1 (signOut_outcomes {| data := tt; error := None |}
                    (mountedWorld (Some "true") []))).
    + reflexivity.
    + reflexivity.
Defined.

(** Whatever an action throws is an [Error]: a rejection that is one
    already is rethrown as it is, anything else goes through [handleError]. *)
Theorem actions_throw_errors
    (r : Role) (rememberMe : bool) (health : Settled (option Session))
    (created : Settled (option string))
    (inserted verified signedOut requested updated : Settled unit) (w : World) :
  (forall e, outcome (signUp r rememberMe health created inserted w) = Throws e ->
             instanceOfError e = true)
  /\ (forall e, outcome (signIn rememberMe health verified w) = Throws e ->
                instanceOfError e = true)
  /\ (forall e, outcome (signOut signedOut w) = Throws e -> instanceOfError e = true)
  /\ (forall e, outcome (resetPassword health requested w) = Throws e ->
                instanceOfError e = true)
  /\ (forall e, outcome (updatePassword updated w) = Throws e -> instanceOfError e = true).
Proof.
  repeat split.
  - pattern (signUp r rememberMe health created inserted w); apply wp_run.
    unfold signUp; wp_go; cbn [outcome]; intros e He; try discriminate;
      injection He as <-; assumption || reflexivity.
  - pattern (signIn rememberMe health verified w); apply wp_run.
    unfold signIn; wp_go; cbn [outcome]; intros e He; try discriminate;
      injection He as <-; assumption || reflexivity.
  - pattern (signOut signedOut w); apply wp_run.
    unfold signOut; wp_go; cbn [outcome]; intros e He; try discriminate;
      injection He as <-; assumption || reflexivity.
  - pattern (resetPassword health requested w); apply wp_run.
    unfold resetPassword; wp_go; cbn [outcome]; intros e He; try discriminate;
      injection He as <-; assumption || reflexivity.
  - pattern (updatePassword updated w); apply wp_run.
    unfold updatePassword; wp_go; cbn [outcome]; intros e He; try discriminate;
      injection He as <-; assumption || reflexivity.
Qed.

Lemma actions_throw_errors_witness : instanceOfError (enhanced sessionExpired) = true.
Proof.
  apply (proj1 (proj2 (actions_throw_errors customer false (fulfilled None)
                         (fulfilled None) (fulfilled tt) (failed tt sessionExpired)
                         (fulfilled tt) (fulfilled tt) (fulfilled tt)
                         (mountedWorld None [])))).
  reflexivity.
Defined.

(** A backend call of [signIn], [signOut] or [updatePassword] whose promise
    rejects with an [Error] escapes the classifier: the action rethrows the
    rejection unchanged and the remember-me item is as it was; in a consumer
    that was mounted when the action started, [lastError] stays [null], as
    the action set it at entry. *)
Theorem rejections_bypass_classifier
    (rememberMe : bool) (health : Settled (option Session)) (reason : JsError)
    (w : World) :
  instanceOfError reason = true ->
  (probe_fails health = false ->
   outcome (signIn rememberMe health (Rejected reason) w) = Throws reason
   /\ rememberMeItem (final (signIn rememberMe health (Rejected reason) w))
      = rememberMeItem w
   /\ (mounted w = true ->
       lastError (auth (final (signIn rememberMe health (Rejected reason) w))) = None)
   /\ (mounted (final (signIn rememberMe health (Rejected reason) w)) = true ->
       connectionStatus (auth (final (signIn rememberMe health (Rejected reason) w)))
       = connected))
  /\ (outcome (signOut (Rejected reason) w) = Throws reason
      /\ user (auth (final (signOut (Rejected reason) w))) = user (auth w)
      /\ rememberMeItem (final (signOut (Rejected reason) w)) = rememberMeItem w
      /\ (mounted w = true ->
          lastError (auth (final (signOut (Rejected reason) w))) = None))
  /\ (outcome (updatePassword (Rejected reason) w) = Throws reason
      /\ (mounted w = true ->
          lastError (auth (final (updatePassword (Rejected reason) w))) = None)
      /\ (mounted (final (updatePassword (Rejected reason) w)) = true ->
          loading (auth (final (updatePassword (Rejected reason) w))) = false)).
Proof.
  intro Hr. split; [|split].
  - intro Hp.
    pattern (signIn rememberMe health (Rejected reason) w); apply wp_run.
    unfold signIn; wp_go; try congruence; cbn [outcome final events];
      repeat match goal with |- _ /\ _ => split end; try (intro Hf; alive); finish.
  - pattern (signOut (Rejected reason) w); apply wp_run.
    unfold signOut; wp_go; try congruence; cbn [outcome final events];
      repeat match goal with |- _ /\ _ => split end; try (intro Hf; alive); finish.
  - pattern (updatePassword (Rejected reason) w); apply wp_run.
    unfold updatePassword; wp_go; try congruence; cbn [outcome final events];
      repeat match goal with |- _ /\ _ => split end; try (intro Hf; alive); finish.
Qed.

Lemma rejections_bypass_classifier_witness :
  outcome (signIn true (fulfilled None) (Rejected fetchFailure) (mountedWorld None []))
  = Throws fetchFailure.
Proof.
  apply (proj1 (rejections_bypass_classifier true (fulfilled None) fetchFailure
                  (mountedWorld None []) eq_refl)).
  reflexivity.
Defined.

(** [updatePassword] does not probe: its only backend call is the update;
    it never touches [user], the reset sub-state or the remember-me item,
    and when the update is accepted it leaves [connectionStatus] alone and,
    in a consumer that was mounted when it started, [lastError] at [null]. *)
Theorem updatePassword_frame (updated : Settled unit) (w : World) :
  backend_calls (events (updatePassword updated w)) = [UpdateUser]
  /\ storage_writes (events (updatePassword updated w)) = []
  /\ rememberMeItem (final (updatePassword updated w)) = rememberMeItem w
  /\ user (auth (final (updatePassword updated w))) = user (auth w)
  /\ isResettingPassword (auth (final (updatePassword updated w)))
     = isResettingPassword (auth w)
  /\ resetPasswordError (auth (final (updatePassword updated w)))
     = resetPasswordError (auth w)
  /\ (outcome (updatePassword updated w) = Returns tt ->
      connectionStatus (auth (final (updatePassword updated w)))
      = connectionStatus (auth w)
      /\ (mounted w = true ->
          lastError (auth (final (updatePassword updated w))) = None)).
Proof.
  pattern (updatePassword updated w); apply wp_run.
  unfold updatePassword; wp_go; finish; intro; finish; intro; finish.
Qed.

(** [resetPassword] never touches [user], [loading] or the remember-me
    item; when it throws in a consumer that is still mounted,
    [resetPasswordError] is the message of what it throws, and when it
    returns in a consumer that was mounted when it started,
    [resetPasswordError] is [null]. *)
Theorem resetPassword_frame
    (health : Settled (option Session)) (requested : Settled unit) (w : World) :
  user (auth (final (resetPassword health requested w))) = user (auth w)
  /\ loading (auth (final (resetPassword health requested w))) = loading (auth w)
  /\ rememberMeItem (final (resetPassword health requested w)) = rememberMeItem w
  /\ storage_writes (events (resetPassword health requested w)) = []
  /\ match outcome (resetPassword health requested w) with
     | Returns _ =>
         mounted w = true ->
         resetPasswordError (auth (final (resetPassword health requested w))) = None
     | Throws e =>
         mounted (final (resetPassword health requested w)) = true ->
         resetPasswordError (auth (final (resetPassword health requested w)))
         = message e
     end.
Proof.
  pattern (resetPassword health requested w); apply wp_run.
  unfold resetPassword; wp_go; cbn [outcome final events];
    repeat match goal with |- _ /\ _ => split end; try (intro Hf; alive); finish.
Qed.

Lemma resetPassword_frame_witness :
  resetPasswordError
    (auth (final (resetPassword (fulfilled None) (failed tt sessionExpired)
                                (mountedWorld None []))))
  = Some "Session expired".
Proof.
  apply (proj2 (proj2 (proj2 (proj2 (resetPassword_frame (fulfilled None)
                  (failed tt sessionExpired) (mountedWorld None [])))))).
  reflexivity.
Defined.

(** [signUp] calls the backend for the probe, then for the sign-up, then
    for the profile row of the user the sign-up created; it waits 500ms
    before the insert, and without a created user there is neither wait nor
    insert. *)
Theorem signUp_calls
    (r : Role) (rememberMe : bool) (health : Settled (option Session))
    (created : Settled (option string)) (inserted : Settled unit) (w : World) :
  backend_calls (events (signUp r rememberMe health created inserted w))
  = GetSession
    :: (if probe_fails health then []
        else AuthSignUp
             :: match created_user created with
                | Some userId => [InsertUser userId r]
                | None => []
                end)
  /\ timers (events (signUp r rememberMe health created inserted w))
     = (if probe_fails health then []
        else match created_user created with
             | Some _ => [500%Z]
             | None => []
             end).
Proof.
  pattern (signUp r rememberMe health created inserted w); apply wp_run.
  unfold signUp; wp_go; finish.
Qed.

Lemma signIn_flag rememberMe health verified w :
  outcome (signIn rememberMe health verified w) = Returns tt ->
  rememberMeItem (final (signIn rememberMe health verified w))
  = if rememberMe then Some "true" else None.
Proof.
  pattern (signIn rememberMe health verified w); apply wp_run.
  unfold signIn; wp_go; cbn [outcome]; intro He; try discriminate; finish.
Qed.

Lemma signUp_flag r rememberMe health created inserted w :
  outcome (signUp r rememberMe health created inserted w) = Returns tt ->
  rememberMeItem (final (signUp r rememberMe health created inserted w))
  = if rememberMe then Some "true" else None.
Proof.
  pattern (signUp r rememberMe health created inserted w); apply wp_run.
  unfold signUp; wp_go; cbn [outcome]; intro He; try discriminate; finish.
Qed.

(** After a sign-in or sign-up that returns, the remember-me item is
    "true" when [rememberMe] was asked for and absent otherwise. *)
Theorem flag_follows_rememberMe
    (r : Role) (rememberMe : bool) (health : Settled (option Session))
    (created : Settled (option string)) (inserted verified : Settled unit) (w : World) :
  (outcome (signIn rememberMe health verified w) = Returns tt ->
   rememberMeItem (final (signIn rememberMe health verified w))
   = if rememberMe then Some "true" else None)
  /\ (outcome (signUp r rememberMe health created inserted w) = Returns tt ->
      rememberMeItem (final (signUp r rememberMe health created inserted w))
      = if rememberMe then Some "true" else None).
Proof.
  split.
  - exact (signIn_flag rememberMe health verified w).
  - exact (signUp_flag r rememberMe health created inserted w).
Qed.

Lemma flag_follows_rememberMe_witness :
  rememberMeItem (final (signIn true (fulfilled None) (fulfilled tt) (mountedWorld None [])))
  = Some "true".
Proof.
  apply (proj1 (flag_follows_rememberMe customer true (fulfilled None) (fulfilled None)
                  (fulfilled tt) (fulfilled tt) (mountedWorld None []))).
  reflexivity.
Defined.

(** ** More on the bootstrap *)

Lemma initializeAuth_backend_calls health signedOut current row w :
  backend_calls (events (initializeAuth health signedOut current row w))
  = GetSession
    :: (if probe_fails health then []
        else if opt_is (rememberMeItem w) "true"
             then GetSession :: session_lookup current
             else [AuthSignOut]).
Proof.
  pattern (initializeAuth health signedOut current row w); apply wp_run.
  unfold initializeAuth; wp_go; flag_hyps; finish.
Qed.

(** The backend calls of the bootstrap: the probe; then nothing when it
    fails, a sign-out when the remember-me item is not "true", and otherwise
    a session lookup followed by a profile lookup for the user of the
    session, if the lookup gave one without error. *)
Theorem bootstrap_calls
    (health : Settled (option Session)) (signedOut : Settled unit)
    (current : Settled (option Session)) (row : Settled (option User)) (w : World) :
  backend_calls (events (initializeAuth health signedOut current row w))
  = GetSession
    :: (if probe_fails health then []
        else if opt_is (rememberMeItem w) "true"
             then GetSession :: session_lookup current
             else [AuthSignOut]).
Proof. exact (initializeAuth_backend_calls health signedOut current row w). Qed.

(** The bootstrap never sets the remember-me item: it keeps it or removes
    it, and it keeps it whenever the item was "true" and the session lookup
    gave a user without error, even if the profile lookup then fails. *)
Theorem bootstrap_keeps_or_removes_flag
    (health : Settled (option Session)) (signedOut : Settled unit)
    (current : Settled (option Session)) (row : Settled (option User)) (w : World) :
  (rememberMeItem (final (initializeAuth health signedOut current row w))
   = rememberMeItem w
   \/ rememberMeItem (final (initializeAuth health signedOut current row w)) = None)
  /\ (probe_fails health = false -> rememberMeItem w = Some "true" ->
      forall userId, session_lookup current = [SelectUser userId] ->
      rememberMeItem (final (initializeAuth health signedOut current row w))
      = Some "true").
Proof.
  pattern (initializeAuth health signedOut current row w); apply wp_run.
  unfold initializeAuth; wp_go; flag_hyps; cbn [outcome final events];
    (split; [finish | intros Hp Hflag userId Hlook]);
    try congruence; try discriminate; try (finish; fail).
  all: try (rewrite Hflag in *; discriminate).
  all: cbn in Hlook;
    repeat match goal with
           | E : error _ = _ |- _ => rewrite E in Hlook
           | E : session_user_id _ = _ |- _ => rewrite E in Hlook
           end;
    try discriminate; finish.
Qed.

Lemma bootstrap_keeps_or_removes_flag_witness :
  rememberMeItem
    (final (initializeAuth (fulfilled None) (fulfilled tt) (fulfilled janeSession)
                           (failed None sessionExpired) (mountedWorld (Some "true") [])))
  = Some "true".
Proof.
  apply (proj2 (bootstrap_keeps_or_removes_flag (fulfilled None) (fulfilled tt)
                  (fulfilled janeSession) (failed None sessionExpired)
                  (mountedWorld (Some "true") [])))
    with (userId := "u1"); reflexivity.
Defined.

Lemma signOut_flag rep w :
  error rep = None -> rememberMeItem (final (signOut (Fulfilled rep) w)) = None.
Proof.
  pattern (signOut (Fulfilled rep) w); apply wp_run.
  unfold signOut; wp_go; intro H; try congruence; finish.
Qed.

(** Across a restart the storage is all that remains of a session.  After
    a sign-in that returned, the bootstrap of the next consumer looks the
    session up when [rememberMe] was asked for and forces a sign-out when
    it was not; after a sign-out that the backend accepted it always forces
    a sign-out. *)
Theorem restart_follows_flag
    (rememberMe : bool) (health : Settled (option Session)) (verified : Settled unit)
    (rep : Reply unit) (w : World)
    (health' : Settled (option Session)) (signedOut : Settled unit)
    (current : Settled (option Session)) (row : Settled (option User))
    (schedule : list bool) :
  probe_fails health' = false ->
  (outcome (signIn rememberMe health verified w) = Returns tt ->
   backend_calls
     (events (initializeAuth health' signedOut current row
                (mountedWorld (rememberMeItem (final (signIn rememberMe health verified w)))
                              schedule)))
   = GetSession
     :: (if rememberMe then GetSession :: session_lookup current else [AuthSignOut]))
  /\ (error rep = None ->
      backend_calls
        (events (initializeAuth health' signedOut current row
                   (mountedWorld (rememberMeItem (final (signOut (Fulfilled rep) w)))
                                 schedule)))
      = [GetSession; AuthSignOut]).
Proof.
  intro Hp. split; intro H.
  - pose proof (signIn_flag rememberMe health verified w H) as Hitem.
    revert Hitem.
    generalize (rememberMeItem (final (signIn rememberMe health verified w))).
    intros item ->.
    rewrite initializeAuth_backend_calls, Hp.
    destruct rememberMe; reflexivity.
  - pose proof (signOut_flag rep w H) as Hitem.
    revert Hitem.
    generalize (rememberMeItem (final (signOut (Fulfilled rep) w))).
    intros item ->.
    rewrite initializeAuth_backend_calls, Hp. reflexivity.
Qed.

Lemma restart_follows_flag_witness :
  backend_calls
    (events (initializeAuth (fulfilled None) (fulfilled tt) (fulfilled janeSession)
               (fulfilled (Some jane))
               (mountedWorld
                  (rememberMeItem
                     (final (signIn true (fulfilled None) (fulfilled tt)
                                    (mountedWorld None []))))
                  [])))
  = [GetSession; GetSession; SelectUser "u1"].
Proof.
  apply (proj1 (restart_follows_flag true (fulfilled None) (fulfilled tt)
                  {| data := tt; error := None |} (mountedWorld None [])
                  (fulfilled None) (fulfilled tt) (fulfilled janeSession)
                  (fulfilled (Some jane)) [] eq_refl)).
  reflexivity.
Defined.

(** What a bootstrap that finds the remember-me item at "true" ends with,
    by what the session lookup gives: an error or a rejection removes the
    item and, for a consumer that is still mounted, records the error; a
    session without user removes the item;
    a session with a user keeps the item and, for a consumer that is still
    mounted, leaves in [user] the profile row, or [null] when the profile
    lookup fails.  [loading] is [false] for a mounted consumer in each case. *)
Theorem bootstrap_with_flag
    (health : Settled (option Session)) (signedOut : Settled unit)
    (current : Settled (option Session)) (row : Settled (option User)) (w : World) :
  probe_fails health = false ->
  rememberMeItem w = Some "true" ->
  match current with
  | Rejected reason =>
      rememberMeItem (final (initializeAuth health signedOut current row w)) = None
      /\ (mounted (final (initializeAuth health signedOut current row w)) = true ->
          lastError (auth (final (initializeAuth health signedOut current row w)))
          = Some (enhanced reason)
          /\ user (auth (final (initializeAuth health signedOut current row w))) = None
          /\ loading (auth (final (initializeAuth health signedOut current row w))) = false)
  | Fulfilled rep =>
      match error rep with
      | Some err =>
          rememberMeItem (final (initializeAuth health signedOut current row w)) = None
          /\ user (auth (final (initializeAuth health signedOut current row w)))
             = user (auth w)
          /\ (mounted (final (initializeAuth health signedOut current row w)) = true ->
              lastError (auth (final (initializeAuth health signedOut current row w)))
              = Some (enhanced err)
              /\ loading (auth (final (initializeAuth health signedOut current row w)))
                 = false)
      | None =>
          match session_user_id (data rep) with
          | None =>
              rememberMeItem (final (initializeAuth health signedOut current row w))
              = None
              /\ (mounted (final (initializeAuth health signedOut current row w)) = true ->
                  user (auth (final (initializeAuth health signedOut current row w)))
                  = None
                  /\ loading (auth (final (initializeAuth health signedOut current row w)))
                     = false)
          | Some _ =>
              rememberMeItem (final (initializeAuth health signedOut current row w))
              = Some "true"
              /\ (mounted (final (initializeAuth health signedOut current row w)) = true ->
                  user (auth (final (initializeAuth health signedOut current row w)))
                  = match fetched row with
                    | Returns u => Some u
                    | Throws _ => None
                    end
                  /\ loading (auth (final (initializeAuth health signedOut current row w)))
                     = false)
          end
      end
  end.
Proof.
  intros Hp Hflag.
  pattern (initializeAuth health signedOut current row w); apply wp_run.
  unfold initializeAuth; wp_go; flag_hyps; try congruence;
    try (rewrite Hflag in *; discriminate).
  all: cbn [outcome final events error data]; recall.
  all: repeat match goal with |- _ /\ _ => split end;
    try intro Hm; alive; try congruence; finish.
Qed.

Lemma bootstrap_with_flag_witness :
  rememberMeItem
    (final (initializeAuth (fulfilled None) (fulfilled tt) (fulfilled janeSession)
                           (fulfilled (Some jane)) (mountedWorld (Some "true") [])))
  = Some "true"
  /\ (mounted
        (final (initializeAuth (fulfilled None) (fulfilled tt) (fulfilled janeSession)
                               (fulfilled (Some jane)) (mountedWorld (Some "true") [])))
      = true ->
      user
        (auth (final (initializeAuth (fulfilled None) (fulfilled tt)
                                     (fulfilled janeSession) (fulfilled (Some jane))
                                     (mountedWorld (Some "true") []))))
      = Some jane
      /\ loading
           (auth (final (initializeAuth (fulfilled None) (fulfilled tt)
                                        (fulfilled janeSession) (fulfilled (Some jane))
                                        (mountedWorld (Some "true") []))))
         = false).
Proof.
  exact (bootstrap_with_flag (fulfilled None) (fulfilled tt) (fulfilled janeSession)
           (fulfilled (Some jane)) (mountedWorld (Some "true") []) eq_refl eq_refl).
Defined.

(** A bootstrap whose probe fails stops there: no other backend call, the
    remember-me item and [user] are as they were, and for a consumer still
    mounted [connectionStatus] is [disconnected] and [loading] is [false]. *)
Theorem bootstrap_unreachable
    (health : Settled (option Session)) (signedOut : Settled unit)
    (current : Settled (option Session)) (row : Settled (option User)) (w : World) :
  probe_fails health = true ->
  backend_calls (events (initializeAuth health signedOut current row w)) = [GetSession]
  /\ storage_writes (events (initializeAuth health signedOut current row w)) = []
  /\ rememberMeItem (final (initializeAuth health signedOut current row w))
     = rememberMeItem w
  /\ user (auth (final (initializeAuth health signedOut current row w))) = user (auth w)
  /\ lastError (auth (final (initializeAuth health signedOut current row w)))
     = lastError (auth w)
  /\ (mounted (final (initializeAuth health signedOut current row w)) = true ->
      connectionStatus (auth (final (initializeAuth health signedOut current row w)))
      = disconnected
      /\ loading (auth (final (initializeAuth health signedOut current row w))) = false).
Proof.
  intro Hp.
  pattern (initializeAuth health signedOut current row w); apply wp_run.
  unfold initializeAuth; wp_go; try congruence.
  all: cbn [outcome final events]; repeat match goal with |- _ /\ _ => split end;
    try intro Hm; alive; try congruence; finish.
Qed.

Lemma bootstrap_unreachable_witness :
  backend_calls
    (events (initializeAuth (Rejected fetchFailure) (fulfilled tt) (fulfilled janeSession)
                            (fulfilled (Some jane)) (mountedWorld (Some "true") [])))
  = [GetSession].
Proof.
  apply (bootstrap_unreachable (Rejected fetchFailure) (fulfilled tt)
           (fulfilled janeSession) (fulfilled (Some jane))
           (mountedWorld (Some "true") [])).
  reflexivity.
Defined.

(** ** More on the helpers *)

(** The probe changes [connectionStatus] and nothing else, and calls the
    backend once. *)
Theorem testConnection_frame (health : Settled (option Session)) (w : World) :
  backend_calls (events (testConnection health w)) = [GetSession]
  /\ storage_writes (events (testConnection health w)) = []
  /\ rememberMeItem (final (testConnection health w)) = rememberMeItem w
  /\ user (auth (final (testConnection health w))) = user (auth w)
  /\ loading (auth (final (testConnection health w))) = loading (auth w)
  /\ lastError (auth (final (testConnection health w))) = lastError (auth w)
  /\ isResettingPassword (auth (final (testConnection health w)))
     = isResettingPassword (auth w)
  /\ resetPasswordError (auth (final (testConnection health w)))
     = resetPasswordError (auth w).
Proof.
  pattern (testConnection health w); apply wp_run; apply wp_testConnection.
  finish.
Qed.

(** The profile lookup returns the row exactly when the store answers
    with a row and no error; otherwise it throws an [Error], which is the
    rejection itself when that is one (then [lastError] is not written)
    and an enhanced error in every other case; it never writes [user] or
    [loading] and never touches the storage. *)
Theorem fetchUserProfile_result (userId : string) (row : Settled (option User)) (w : World) :
  outcome (fetchUserProfile userId row w) = fetched row
  /\ (forall u, fetched row = Returns u <->
                exists rep, row = Fulfilled rep /\ error rep = None /\ data rep = Some u)
  /\ (forall e, fetched row = Throws e -> instanceOfError e = true)
  /\ (forall reason, row = Rejected reason -> instanceOfError reason = true ->
       fetched row = Throws reason
       /\ lastError (auth (final (fetchUserProfile userId row w))) = lastError (auth w))
  /\ backend_calls (events (fetchUserProfile userId row w)) = [SelectUser userId]
  /\ storage_writes (events (fetchUserProfile userId row w)) = []
  /\ user (auth (final (fetchUserProfile userId row w))) = user (auth w)
  /\ loading (auth (final (fetchUserProfile userId row w))) = loading (auth w).
Proof.
  pattern (fetchUserProfile userId row w); apply wp_run; apply wp_fetchUserProfile.
  cbn [outcome final events].
  split; [reflexivity|]. split; [|split; [|split]].
  - intro u. unfold fetched. split.
    + destruct row as [rep|reason].
      * destruct (error rep) eqn:E; [discriminate|].
        destruct (data rep) eqn:D; [|discriminate].
        intro H; injection H as <-. exists rep. auto.
      * destruct (instanceOfError reason); discriminate.
    + intros [rep [-> [E D]]]. rewrite E, D. reflexivity.
  - intros e. unfold fetched.
    destruct row as [rep|reason].
    + destruct (error rep); [intro H; injection H as <-; reflexivity|].
      destruct (data rep); [discriminate|].
      intro H; injection H as <-; reflexivity.
    + destruct (instanceOfError reason) eqn:E; intro H; injection H as <-;
        [exact E | reflexivity].
  - intros reason -> Hr. unfold fetched, fetch_state, fetch_failure.
    rewrite Hr. split; [reflexivity|]. cbn. autorewrite with world. reflexivity.
  - finish.
Qed.

Lemma fetchUserProfile_result_witness :
  fetched (Rejected fetchFailure) = Throws fetchFailure
  /\ lastError (auth (final (fetchUserProfile "u1" (Rejected fetchFailure)
                                               (mountedWorld None []))))
     = lastError (auth (mountedWorld None [])).
Proof.
  apply (fetchUserProfile_result "u1" (Rejected fetchFailure) (mountedWorld None []))
    with (reason := fetchFailure); reflexivity.
Defined.

(** A bootstrap that ends unmounted has written neither [user] nor
    [loading]: every write to them comes after its last suspension and is
    guarded. *)
Theorem bootstrap_unmounted_frame
    (health : Settled (option Session)) (signedOut : Settled unit)
    (current : Settled (option Session)) (row : Settled (option User)) (w : World) :
  mounted (final (initializeAuth health signedOut current row w)) = false ->
  user (auth (final (initializeAuth health signedOut current row w))) = user (auth w)
  /\ loading (auth (final (initializeAuth health signedOut current row w)))
     = loading (auth w).
Proof.
  pattern (initializeAuth health signedOut current row w); apply wp_run.
  unfold initializeAuth; wp_go; cbn [outcome final events];
    intro Hm; mounted_hyps; try congruence; finish.
Qed.

Lemma bootstrap_unmounted_frame_witness :
  user (auth (final (initializeAuth (fulfilled None) (fulfilled tt) (fulfilled janeSession)
                                    (fulfilled (Some jane))
                                    (mountedWorld (Some "true") [false; false; true]))))
  = None
  /\ loading (auth (final (initializeAuth (fulfilled None) (fulfilled tt)
                                          (fulfilled janeSession) (fulfilled (Some jane))
                                          (mountedWorld (Some "true") [false; false; true]))))
     = true.
Proof.
  apply (bootstrap_unmounted_frame (fulfilled None) (fulfilled tt) (fulfilled janeSession)
           (fulfilled (Some jane)) (mountedWorld (Some "true") [false; false; true])).
  reflexivity.
Defined.

(** [signUp], [signIn], [resetPassword] and [updatePassword] never write
    [user]: a session becomes visible in the state through the handler or
    the bootstrap only. *)
Theorem actions_keep_user
    (r : Role) (rememberMe : bool) (health : Settled (option Session))
    (created : Settled (option string))
    (inserted verified requested updated : Settled unit) (w : World) :
  user (auth (final (signUp r rememberMe health created inserted w))) = user (auth w)
  /\ user (auth (final (signIn rememberMe health verified w))) = user (auth w)
  /\ user (auth (final (resetPassword health requested w))) = user (auth w)
  /\ user (auth (final (updatePassword updated w))) = user (auth w).
Proof.
  repeat split.
  - pattern (signUp r rememberMe health created inserted w); apply wp_run.
    unfold signUp; wp_go; finish.
  - pattern (signIn rememberMe health verified w); apply wp_run.
    unfold signIn; wp_go; finish.
  - pattern (resetPassword health requested w); apply wp_run.
    unfold resetPassword; wp_go; finish.
  - pattern (updatePassword updated w); apply wp_run.
    unfold updatePassword; wp_go; finish.
Qed.

Lemma updatePassword_frame_witness :
  connectionStatus (auth (final (updatePassword (fulfilled tt) (mountedWorld None []))))
  = checking
  /\ lastError (auth (final (updatePassword (fulfilled tt) (mountedWorld None [])))) = None.
Proof.
  split.
  - apply (updatePassword_frame (fulfilled tt) (mountedWorld None [])).
    reflexivity.
  - apply (updatePassword_frame (fulfilled tt) (mountedWorld None [])).
    + reflexivity.
    + reflexivity.
Defined.
